(** * The Ingenic TCU clock-event driver (drivers/clocksource/timer-ingenic.c)

    A shallow embedding of the driver: the unit and its channels are records,
    every function of the driver is a computation in a small monad over the
    state of the machine, and every side effect (a call into the rest of the
    kernel, a register write, a bitmap operation) is appended to a log, so
    that statements about the order of effects are statements about lists. *)

From Stdlib Require Import ZArith Lia.
From stdpp Require Import base option list gmap strings pretty.

Local Open Scope Z_scope.

(** ** Constants of the driver *)

Definition TCSR_RESERVED_BITS : Z := 0x3f.

Definition REG_TDFR0 : Z := 0x40.
Definition REG_TDHR0 : Z := 0x44.
Definition REG_TCNT0 : Z := 0x48.
Definition REG_TCSR0 : Z := 0x4c.

Definition CHANNEL_STRIDE : Z := 0x10.

(** Offsets are computed on [unsigned] operands: the arithmetic wraps at 32
    bits. *)
Definition u32 (z : Z) : Z := z mod 2 ^ 32.

Definition REG_TDFRc (c : Z) : Z := u32 (REG_TDFR0 + u32 (c * CHANNEL_STRIDE)).
Definition REG_TDHRc (c : Z) : Z := u32 (REG_TDHR0 + u32 (c * CHANNEL_STRIDE)).
Definition REG_TCNTc (c : Z) : Z := u32 (REG_TCNT0 + u32 (c * CHANNEL_STRIDE)).
Definition REG_TCSRc (c : Z) : Z := u32 (REG_TCSR0 + u32 (c * CHANNEL_STRIDE)).

(** Error numbers and the interrupt return code, with the values of the
    kernel headers. *)
Definition ENOMEM : Z := 12.
Definition EBUSY : Z := 16.
Definition EINVAL : Z := 22.
Definition IRQ_HANDLED : Z := 1.

Definition CLOCK_EVT_FEAT_ONESHOT : Z := 2.

(** ** Pointers that may carry an error

    The kernel returns either a pointer or [ERR_PTR(-e)] with [e] a positive
    error number. [Ptr 0] is the null pointer. *)

Inductive ptr_err : Type :=
| Ptr (p : Z)
| ErrPtr (e : positive).

Definition IS_ERR (r : ptr_err) : bool :=
  match r with
  | Ptr _ => false
  | ErrPtr _ => true
  end.

Definition PTR_ERR (r : ptr_err) : Z :=
  match r with
  | Ptr p => p
  | ErrPtr e => Z.neg e
  end.

Definition ERR_PTR (err : Z) : ptr_err :=
  match err with
  | Z.neg e => ErrPtr e
  | _ => Ptr err
  end.

(** ** Data of the driver *)

(** [struct ingenic_tcu_channel]. The back pointer [tcu] is not a field here:
    there is one unit, and it is part of the state below. *)
Record ingenic_tcu_channel : Type := {
  idx : Z;
  clk : ptr_err
}.

(** [struct ingenic_tcu]. *)
Record ingenic_tcu : Type := {
  base : Z;
  num_channels : Z;
  channels : list ingenic_tcu_channel;
  requested : Z;
  ter : ptr_err
}.

(** What [kzalloc] is asked for. *)
Inductive alloc_obj : Type :=
| ObjTcu
| ObjChannels (n : Z)
| ObjCevt.

(** ** The log of side effects, oldest first *)

Inductive event : Type :=
| EvPrInfo (msg : string)
| EvCountElems (prop : string) (size : Z) (result : Z)
| EvReadU32Index (prop : string) (i : Z) (err : Z)
| EvKzalloc (obj : alloc_obj) (p : Z)
| EvKfree (p : Z)
| EvSysconLookup (prop : string) (r : ptr_err)
| EvOfIomap (i : Z) (p : Z)
| EvTestAndSetBit (nr : Z) (old : bool)
| EvClearBit (nr : Z)
| EvClkGet (name : string) (r : ptr_err)
| EvClkPrepareEnable (c : ptr_err) (err : Z)
| EvClkDisableUnprepare (c : ptr_err)
| EvClkPut (c : ptr_err)
| EvClkGetRate (c : ptr_err) (rate : Z)
| EvOfParsePhandle (prop : string) (i : Z) (node : Z)
| EvSysconNodeToRegmap (node : Z) (r : ptr_err)
| EvRegmapUpdateBits (map : ptr_err) (reg mask val : Z) (err : Z)
| EvWritel (v : Z) (addr : Z)
| EvTimerEnable (map : ptr_err) (channel : Z)
| EvTimerDisable (map : ptr_err) (channel : Z)
| EvIrqOfParseAndMap (i : Z) (virq : Z)
| EvRequestIrq (virq : Z) (name : string) (err : Z)
| EvIrqDisposeMapping (virq : Z)
| EvClockeventsRegister (name : string) (cpu features rating : Z)
    (rate min_delta max_delta : Z)
| EvEventHandler.

(** ** The rest of the kernel

    The answers of the functions the driver calls but does not define. Each
    answer may depend on everything that has happened so far. *)

Record kernel : Type := {
  k_count_elems : list event -> string -> Z -> Z;
  k_read_u32_index : list event -> string -> Z -> Z * Z;
  k_kzalloc : list event -> alloc_obj -> Z;
  k_syscon_lookup : list event -> string -> ptr_err;
  k_of_iomap : list event -> Z -> Z;
  k_clk_get : list event -> string -> ptr_err;
  k_clk_prepare_enable : list event -> ptr_err -> Z;
  k_clk_get_rate : list event -> ptr_err -> Z;
  k_of_parse_phandle : list event -> string -> Z -> Z;
  k_syscon_node_to_regmap : list event -> Z -> ptr_err;
  k_regmap_update_bits : list event -> ptr_err -> Z -> Z -> Z -> Z;
  k_irq_of_parse_and_map : list event -> Z -> Z;
  k_request_irq : list event -> Z -> string -> Z;
  k_smp_processor_id : list event -> Z
}.

(** ** The state of the machine *)

Record world : Type := {
  tcu : ingenic_tcu;
  (** the register window of the unit, by address *)
  mmio : gmap Z Z;
  (** the shared enable register behind [tcu->ter] *)
  ter_reg : Z;
  (** the registers behind the other register maps, by handle and offset *)
  regmap_regs : gmap (Z * Z) Z;
  log : list event
}.

Definition with_tcu (t : ingenic_tcu) (w : world) : world :=
  {| tcu := t; mmio := mmio w; ter_reg := ter_reg w;
     regmap_regs := regmap_regs w; log := log w |}.

Definition with_mmio (m : gmap Z Z) (w : world) : world :=
  {| tcu := tcu w; mmio := m; ter_reg := ter_reg w;
     regmap_regs := regmap_regs w; log := log w |}.

Definition with_ter_reg (v : Z) (w : world) : world :=
  {| tcu := tcu w; mmio := mmio w; ter_reg := v;
     regmap_regs := regmap_regs w; log := log w |}.

Definition with_regmap_regs (m : gmap (Z * Z) Z) (w : world) : world :=
  {| tcu := tcu w; mmio := mmio w; ter_reg := ter_reg w;
     regmap_regs := m; log := log w |}.

Definition with_log (l : list event) (w : world) : world :=
  {| tcu := tcu w; mmio := mmio w; ter_reg := ter_reg w;
     regmap_regs := regmap_regs w; log := l |}.

Definition with_requested (r : Z) (t : ingenic_tcu) : ingenic_tcu :=
  {| base := base t; num_channels := num_channels t; channels := channels t;
     requested := r; ter := ter t |}.

Definition with_channels (cs : list ingenic_tcu_channel) (t : ingenic_tcu)
  : ingenic_tcu :=
  {| base := base t; num_channels := num_channels t; channels := cs;
     requested := requested t; ter := ter t |}.

Definition with_clk (c : ptr_err) (ch : ingenic_tcu_channel)
  : ingenic_tcu_channel :=
  {| idx := idx ch; clk := c |}.

Definition with_idx (i : Z) (ch : ingenic_tcu_channel) : ingenic_tcu_channel :=
  {| idx := i; clk := clk ch |}.

(** ** The monad of the driver

    A computation ends normally with a value, stops at a [BUG_ON], or reaches
    outside the array [tcu->channels], after which C promises nothing. *)

Inductive res (A : Type) : Type :=
| Done (a : A) (w : world)
| Bug (w : world)
| Wild (w : world).

Arguments Done {A} a w.
Arguments Bug {A} w.
Arguments Wild {A} w.

Definition M (A : Type) : Type := world -> res A.

Definition ret {A : Type} (a : A) : M A := fun w => Done a w.

Definition bind {A B : Type} (m : M A) (k : A -> M B) : M B :=
  fun w =>
    match m w with
    | Done a w' => k a w'
    | Bug w' => Bug w'
    | Wild w' => Wild w'
    end.

Notation "x <- m ;; k" := (bind m (fun x => k))
  (at level 100, m at next level, right associativity).
Notation "m ;;; k" := (bind m (fun _ => k))
  (at level 100, right associativity).

Definition emit (e : event) : M unit :=
  fun w => Done tt (with_log (log w ++ [e]) w).

Definition history : M (list event) := fun w => Done (log w) w.

Definition the_tcu : M ingenic_tcu := fun w => Done (tcu w) w.

Definition BUG_ON (b : bool) : M unit :=
  fun w => if b then Bug w else Done tt w.

(** [*channel], for [channel = &tcu->channels[c]]. *)
Definition channel_at (c : nat) : M ingenic_tcu_channel :=
  fun w =>
    match channels (tcu w) !! c with
    | Some ch => Done ch w
    | None => Wild w
    end.

(** [channel->clk = v]. *)
Definition store_clk (c : nat) (v : ptr_err) : M unit :=
  fun w =>
    match channels (tcu w) !! c with
    | Some ch =>
        Done tt (with_tcu (with_channels (<[c := with_clk v ch]> (channels (tcu w)))
                             (tcu w)) w)
    | None => Wild w
    end.

(** ** Bitmap operations on [tcu->requested] *)

Definition test_and_set_bit (nr : Z) : M bool :=
  fun w =>
    let old := Z.testbit (requested (tcu w)) nr in
    Done old
      (with_log (log w ++ [EvTestAndSetBit nr old])
         (with_tcu (with_requested (Z.setbit (requested (tcu w)) nr) (tcu w)) w)).

Definition clear_bit (nr : Z) : M unit :=
  fun w =>
    Done tt
      (with_log (log w ++ [EvClearBit nr])
         (with_tcu (with_requested (Z.clearbit (requested (tcu w)) nr) (tcu w)) w)).

(** The line the initializer prints first. *)
Definition banner : string :=
  "ingenic_tcu_init" +:+ String (Ascii.ascii_of_nat 10) EmptyString.

(** ** Calls into the kernel *)

Section Driver.

Variable K : kernel.

Definition clk_get (name : string) : M ptr_err :=
  h <- history;;
  let r := k_clk_get K h name in
  emit (EvClkGet name r);;;
  ret r.

Definition clk_prepare_enable (c : ptr_err) : M Z :=
  h <- history;;
  let err := k_clk_prepare_enable K h c in
  emit (EvClkPrepareEnable c err);;;
  ret err.

Definition clk_disable_unprepare (c : ptr_err) : M unit :=
  emit (EvClkDisableUnprepare c).

Definition clk_put (c : ptr_err) : M unit :=
  emit (EvClkPut c).

Definition clk_get_rate (c : ptr_err) : M Z :=
  h <- history;;
  let rate := k_clk_get_rate K h c in
  emit (EvClkGetRate c rate);;;
  ret rate.

(** ** [ingenic_tcu_req_channel] *)

Definition ingenic_tcu_req_channel (channel : nat) : M Z :=
  ch <- channel_at channel;;
  old <- test_and_set_bit (idx ch);;
  if (old : bool) then ret (- EBUSY)
  else
    let buf := "timer" +:+ pretty (idx ch) in
    r <- clk_get buf;;
    store_clk channel r;;;
    ch <- channel_at channel;;
    if IS_ERR (clk ch) then
      let err := PTR_ERR (clk ch) in
      (* out_release *)
      clear_bit (idx ch);;;
      ret err
    else
      err <- clk_prepare_enable (clk ch);;
      if decide (err <> 0) then
        (* out_clk_put *)
        clk_put (clk ch);;;
        (* out_release *)
        clear_bit (idx ch);;;
        ret err
      else ret 0.

(** ** [ingenic_tcu_free_channel] *)

Definition ingenic_tcu_free_channel (channel : nat) : M unit :=
  ch <- channel_at channel;;
  clk_disable_unprepare (clk ch);;;
  clk_put (clk ch);;;
  clear_bit (idx ch).

(** ** [ingenic_tcu_reset_channel] *)

Definition of_parse_phandle (prop : string) (i : Z) : M Z :=
  h <- history;;
  let node := k_of_parse_phandle K h prop i in
  emit (EvOfParsePhandle prop i node);;;
  ret node.

Definition syscon_node_to_regmap (node : Z) : M ptr_err :=
  h <- history;;
  let r := k_syscon_node_to_regmap K h node in
  emit (EvSysconNodeToRegmap node r);;;
  ret r.

(** The value a masked update leaves in a register. *)
Definition update_bits (old mask val : Z) : Z :=
  Z.lor (Z.land old (Z.lnot mask)) (Z.land val mask).

Definition regmap_read (w : world) (map : ptr_err) (reg : Z) : Z :=
  default 0 (regmap_regs w !! (PTR_ERR map, reg)).

(** Modelled from the spec: [regmap_update_bits] belongs to the register-map
    layer of the kernel, which is not part of this file; it is "an atomic
    masked update (write value, with mask)". One read-modify-write: the bits
    of [mask] take the value they have in [val], the others keep theirs. A
    call that reports an error leaves the register as it was. *)
Definition regmap_update_bits (map : ptr_err) (reg mask val : Z) : M Z :=
  h <- history;;
  let err := k_regmap_update_bits K h map reg mask val in
  emit (EvRegmapUpdateBits map reg mask val err);;;
  (fun w =>
     if decide (err = 0) then
       Done err
         (with_regmap_regs
            (<[(PTR_ERR map, reg) := update_bits (regmap_read w map reg) mask val]>
               (regmap_regs w)) w)
     else Done err w).

Definition ingenic_tcu_reset_channel (channel : nat) : M Z :=
  ch <- channel_at channel;;
  tcsr_node <- of_parse_phandle "tcsr" (idx ch);;
  if decide (tcsr_node = 0) then ret (- EINVAL)
  else
    tcsr <- syscon_node_to_regmap tcsr_node;;
    if IS_ERR tcsr then ret (PTR_ERR tcsr)
    else
      regmap_update_bits tcsr 0 (Z.land 0xffff (Z.lnot TCSR_RESERVED_BITS)) 0.

(** ** The clock-event device *)

(** [struct clock_event_device], as far as the driver uses it. The handler is
    the callback the clock-event framework installs; it may call back into
    the driver, so it is a computation over the same state. *)
Record clock_event_device : Type := {
  event_handler : option (M unit)
}.

Record ingenic_clock_event_device : Type := {
  cevt : clock_event_device;
  channel : nat;
  name : string
}.

Definition writel (v : Z) (addr : Z) : M unit :=
  fun w =>
    Done tt (with_log (log w ++ [EvWritel v addr]) (with_mmio (<[addr := v]> (mmio w)) w)).

Definition readl (w : world) (addr : Z) : option Z := mmio w !! addr.

(** Modelled from the spec: [tcu_timer_enable] is declared in
    linux/mfd/syscon/jz4740-tcu.h, which is not part of this file; it
    "asserts the channel's bit in the shared enable register". *)
Definition tcu_timer_enable (map : ptr_err) (c : Z) : M unit :=
  fun w =>
    Done tt
      (with_log (log w ++ [EvTimerEnable map c])
         (with_ter_reg (Z.setbit (ter_reg w) c) w)).

(** Modelled from the spec: [tcu_timer_disable] is declared in the same
    header; it "clears the channel's bit in the shared enable register". *)
Definition tcu_timer_disable (map : ptr_err) (c : Z) : M unit :=
  fun w =>
    Done tt
      (with_log (log w ++ [EvTimerDisable map c])
         (with_ter_reg (Z.clearbit (ter_reg w) c) w)).

Definition ingenic_tcu_cevt_set_state_shutdown
    (jzcevt : ingenic_clock_event_device) : M Z :=
  ch <- channel_at (channel jzcevt);;
  t <- the_tcu;;
  tcu_timer_disable (ter t) (idx ch);;;
  ret 0.

Definition ingenic_tcu_cevt_set_next (next : Z)
    (jzcevt : ingenic_clock_event_device) : M Z :=
  ch <- channel_at (channel jzcevt);;
  t <- the_tcu;;
  let ix := idx ch in
  if decide (next > 0xffff) then ret (- EINVAL)
  else
    writel (u32 next) (base t + REG_TDFRc ix);;;
    writel 0 (base t + REG_TCNTc ix);;;
    ch <- channel_at (channel jzcevt);;
    tcu_timer_enable (ter t) (idx ch);;;
    ret 0.

Definition ingenic_tcu_timer_names : list string :=
  ["TCU0"; "TCU1"; "TCU2"; "TCU3"; "TCU4"; "TCU5"; "TCU6"; "TCU7"].

Definition ingenic_tcu_cevt_cb (jzcevt : ingenic_clock_event_device) : M Z :=
  ch <- channel_at (channel jzcevt);;
  t <- the_tcu;;
  tcu_timer_disable (ter t) (idx ch);;;
  match event_handler (cevt jzcevt) with
  | Some handler => emit EvEventHandler;;; handler
  | None => ret tt
  end;;;
  ret IRQ_HANDLED.

(** ** [ingenic_tcu_setup_cevt] *)

Definition kzalloc (obj : alloc_obj) : M Z :=
  h <- history;;
  let p := k_kzalloc K h obj in
  emit (EvKzalloc obj p);;;
  ret p.

Definition kfree (p : Z) : M unit := emit (EvKfree p).

Definition irq_of_parse_and_map (i : Z) : M Z :=
  h <- history;;
  let virq := k_irq_of_parse_and_map K h i in
  emit (EvIrqOfParseAndMap i virq);;;
  ret virq.

Definition request_irq (virq : Z) (devname : string) : M Z :=
  h <- history;;
  let err := k_request_irq K h virq devname in
  emit (EvRequestIrq virq devname err);;;
  ret err.

Definition irq_dispose_mapping (virq : Z) : M unit :=
  emit (EvIrqDisposeMapping virq).

Definition smp_processor_id : M Z :=
  h <- history;;
  ret (k_smp_processor_id K h).

Definition clockevents_config_and_register (devname : string)
    (cpu features rating rate min_delta max_delta : Z) : M unit :=
  emit (EvClockeventsRegister devname cpu features rating rate min_delta max_delta).

(** [ingenic_tcu_timer_names[i]]. *)
Definition timer_name (i : Z) : M string :=
  fun w =>
    match ingenic_tcu_timer_names !! Z.to_nat i with
    | Some s => Done s w
    | None => Wild w
    end.

Definition ingenic_tcu_setup_cevt (ix : Z) : M Z :=
  let channel := Z.to_nat ix in
  err <- ingenic_tcu_req_channel channel;;
  if decide (err <> 0) then ret err
  else
    err <- ingenic_tcu_reset_channel channel;;
    if decide (err <> 0) then
      (* err_out_free_channel *)
      ingenic_tcu_free_channel channel;;;
      ret err
    else
      ch <- channel_at channel;;
      rate <- clk_get_rate (clk ch);;
      if decide (rate = 0) then
        ingenic_tcu_free_channel channel;;;
        ret (- EINVAL)
      else
        jzcevt <- kzalloc ObjCevt;;
        if decide (jzcevt = 0) then
          ingenic_tcu_free_channel channel;;;
          ret (- ENOMEM)
        else
          virq <- irq_of_parse_and_map ix;;
          if decide (virq = 0) then
            (* err_out_kfree_jzcevt *)
            kfree jzcevt;;;
            ingenic_tcu_free_channel channel;;;
            ret (- EINVAL)
          else
            devname <- timer_name ix;;
            err <- request_irq virq devname;;
            if decide (err <> 0) then
              (* err_out_irq_dispose_mapping *)
              irq_dispose_mapping virq;;;
              kfree jzcevt;;;
              ingenic_tcu_free_channel channel;;;
              ret err
            else
              ch <- channel_at channel;;
              let name := "ingenic-tcu-chan" +:+ pretty (idx ch) in
              cpu <- smp_processor_id;;
              clockevents_config_and_register name cpu CLOCK_EVT_FEAT_ONESHOT
                200 rate 10 (Z.shiftl 1 16 - 1);;;
              ret 0.

(** ** [ingenic_tcu_init_tcu] *)

Definition store_tcu (f : ingenic_tcu -> ingenic_tcu) : M unit :=
  fun w => Done tt (with_tcu (f (tcu w)) w).

Definition syscon_regmap_lookup_by_phandle (prop : string) : M ptr_err :=
  h <- history;;
  let r := k_syscon_lookup K h prop in
  emit (EvSysconLookup prop r);;;
  ret r.

Definition of_iomap (i : Z) : M Z :=
  h <- history;;
  let p := k_of_iomap K h i in
  emit (EvOfIomap i p);;;
  ret p.

(** [tcu->channels[i].idx = i], for [i] from [i] on, [n] times. *)
Fixpoint number_channels (n : nat) (i : Z) (cs : list ingenic_tcu_channel)
  : list ingenic_tcu_channel :=
  match n with
  | O => cs
  | S n' =>
      number_channels n' (i + 1)
        (alter (with_idx i) (Z.to_nat i) cs)
  end.

Definition zeroed_channel : ingenic_tcu_channel := {| idx := 0; clk := Ptr 0 |}.

Definition zeroed_tcu : ingenic_tcu :=
  {| base := 0; num_channels := 0; channels := []; requested := 0; ter := Ptr 0 |}.

Definition ingenic_tcu_init_tcu (n : Z) : M ptr_err :=
  p <- kzalloc ObjTcu;;
  if decide (p = 0) then ret (ERR_PTR (- ENOMEM))
  else
    store_tcu (fun _ =>
      {| base := 0; num_channels := n; channels := []; requested := 0;
         ter := Ptr 0 |});;;
    cs <- kzalloc (ObjChannels n);;
    if decide (cs = 0) then
      (* out_free *)
      kfree cs;;;
      kfree p;;;
      ret (ERR_PTR (- ENOMEM))
    else
      store_tcu (with_channels (replicate (Z.to_nat n) zeroed_channel));;;
      r <- syscon_regmap_lookup_by_phandle "ter";;
      store_tcu (fun t =>
        {| base := base t; num_channels := num_channels t;
           channels := channels t; requested := requested t; ter := r |});;;
      if IS_ERR r then
        kfree cs;;;
        kfree p;;;
        ret (ERR_PTR (PTR_ERR r))
      else
        b <- of_iomap 0;;
        store_tcu (fun t =>
          {| base := b; num_channels := num_channels t;
             channels := channels t; requested := requested t; ter := ter t |});;;
        if decide (b = 0) then
          kfree cs;;;
          kfree p;;;
          ret (ERR_PTR (- EINVAL))
        else
          store_tcu (fun t =>
            with_channels (number_channels (Z.to_nat n) 0 (channels t)) t);;;
          ret (Ptr p).

(** ** [ingenic_tcu_init] *)

Definition of_property_count_elems_of_size (prop : string) (size : Z) : M Z :=
  h <- history;;
  let n := k_count_elems K h prop size in
  emit (EvCountElems prop size n);;;
  ret n.

Definition of_property_read_u32_index (prop : string) (i : Z) : M (Z * Z) :=
  h <- history;;
  let r := k_read_u32_index K h prop i in
  emit (EvReadU32Index prop i (fst r));;;
  ret (fst r, u32 (snd r)).

(** The body of the loop over the "timers" property, [n] rounds from [i]. *)
Fixpoint init_timers (n : nat) (i : Z) : M unit :=
  match n with
  | O => ret tt
  | S n' =>
      r <- of_property_read_u32_index "timers" i;;
      BUG_ON (bool_decide (fst r <> 0));;;
      err <- ingenic_tcu_setup_cevt (snd r);;
      BUG_ON (bool_decide (err <> 0));;;
      init_timers n' (i + 1)
  end.

Definition ingenic_tcu_init : M Z :=
  emit (EvPrInfo banner);;;
  num_timers <- of_property_count_elems_of_size "timers" 4;;
  if decide (num_timers < 0) then ret (- EINVAL)
  else
    num_channels <- of_property_count_elems_of_size "interrupts" 4;;
    if decide (num_channels < 0 \/ num_channels > 8) then ret (- EINVAL)
    else
      t <- ingenic_tcu_init_tcu num_channels;;
      BUG_ON (IS_ERR t);;;
      init_timers (Z.to_nat num_timers) 0;;;
      ret 0.

End Driver.

(** ** Concrete machines

    A kernel in which every call succeeds, described by the "timers" property,
    the number of interrupts, and variations of it in which one call fails. *)

Definition nominal (timers : list Z) (interrupts : Z) : kernel :=
  {| k_count_elems := fun _ prop _ =>
       if String.eqb prop "timers" then Z.of_nat (length timers) else interrupts;
     k_read_u32_index := fun _ _ i =>
       match timers !! Z.to_nat i with
       | Some t => (0, t)
       | None => (- EINVAL, 0)
       end;
     k_kzalloc := fun _ obj =>
       match obj with
       | ObjTcu => 0x1000
       | ObjChannels _ => 0x2000
       | ObjCevt => 0x3000
       end;
     k_syscon_lookup := fun _ _ => Ptr 0x4000;
     k_of_iomap := fun _ _ => 0xb0002000;
     k_clk_get := fun _ _ => Ptr 0x5000;
     k_clk_prepare_enable := fun _ _ => 0;
     k_clk_get_rate := fun _ _ => 12000000;
     k_of_parse_phandle := fun _ _ i => 0x6000 + i;
     k_syscon_node_to_regmap := fun _ node => Ptr (0x1000 + node);
     k_regmap_update_bits := fun _ _ _ _ _ => 0;
     k_irq_of_parse_and_map := fun _ i => 30 + i;
     k_request_irq := fun _ _ _ => 0;
     k_smp_processor_id := fun _ => 0 |}.

Definition with_clk_get (f : list event -> string -> ptr_err) (k : kernel)
  : kernel :=
  {| k_count_elems := k_count_elems k;
     k_read_u32_index := k_read_u32_index k;
     k_kzalloc := k_kzalloc k;
     k_syscon_lookup := k_syscon_lookup k;
     k_of_iomap := k_of_iomap k;
     k_clk_get := f;
     k_clk_prepare_enable := k_clk_prepare_enable k;
     k_clk_get_rate := k_clk_get_rate k;
     k_of_parse_phandle := k_of_parse_phandle k;
     k_syscon_node_to_regmap := k_syscon_node_to_regmap k;
     k_regmap_update_bits := k_regmap_update_bits k;
     k_irq_of_parse_and_map := k_irq_of_parse_and_map k;
     k_request_irq := k_request_irq k;
     k_smp_processor_id := k_smp_processor_id k |}.

Definition with_clk_prepare_enable (f : list event -> ptr_err -> Z) (k : kernel)
  : kernel :=
  {| k_count_elems := k_count_elems k;
     k_read_u32_index := k_read_u32_index k;
     k_kzalloc := k_kzalloc k;
     k_syscon_lookup := k_syscon_lookup k;
     k_of_iomap := k_of_iomap k;
     k_clk_get := k_clk_get k;
     k_clk_prepare_enable := f;
     k_clk_get_rate := k_clk_get_rate k;
     k_of_parse_phandle := k_of_parse_phandle k;
     k_syscon_node_to_regmap := k_syscon_node_to_regmap k;
     k_regmap_update_bits := k_regmap_update_bits k;
     k_irq_of_parse_and_map := k_irq_of_parse_and_map k;
     k_request_irq := k_request_irq k;
     k_smp_processor_id := k_smp_processor_id k |}.

Definition with_request_irq (f : list event -> Z -> string -> Z) (k : kernel)
  : kernel :=
  {| k_count_elems := k_count_elems k;
     k_read_u32_index := k_read_u32_index k;
     k_kzalloc := k_kzalloc k;
     k_syscon_lookup := k_syscon_lookup k;
     k_of_iomap := k_of_iomap k;
     k_clk_get := k_clk_get k;
     k_clk_prepare_enable := k_clk_prepare_enable k;
     k_clk_get_rate := k_clk_get_rate k;
     k_of_parse_phandle := k_of_parse_phandle k;
     k_syscon_node_to_regmap := k_syscon_node_to_regmap k;
     k_regmap_update_bits := k_regmap_update_bits k;
     k_irq_of_parse_and_map := k_irq_of_parse_and_map k;
     k_request_irq := f;
     k_smp_processor_id := k_smp_processor_id k |}.

Definition with_of_parse_phandle (f : list event -> string -> Z -> Z)
    (k : kernel) : kernel :=
  {| k_count_elems := k_count_elems k;
     k_read_u32_index := k_read_u32_index k;
     k_kzalloc := k_kzalloc k;
     k_syscon_lookup := k_syscon_lookup k;
     k_of_iomap := k_of_iomap k;
     k_clk_get := k_clk_get k;
     k_clk_prepare_enable := k_clk_prepare_enable k;
     k_clk_get_rate := k_clk_get_rate k;
     k_of_parse_phandle := f;
     k_syscon_node_to_regmap := k_syscon_node_to_regmap k;
     k_regmap_update_bits := k_regmap_update_bits k;
     k_irq_of_parse_and_map := k_irq_of_parse_and_map k;
     k_request_irq := k_request_irq k;
     k_smp_processor_id := k_smp_processor_id k |}.

(** The machine before the driver has run. *)
Definition boot : world :=
  {| tcu := zeroed_tcu; mmio := ∅; ter_reg := 0; regmap_regs := ∅; log := [] |}.

(** A unit of two channels, none claimed, as [ingenic_tcu_init_tcu] leaves
    it. *)
Definition two_channels : world :=
  {| tcu := {| base := 0xb0002000; num_channels := 2;
               channels := [ {| idx := 0; clk := Ptr 0 |};
                             {| idx := 1; clk := Ptr 0 |} ];
               requested := 0; ter := Ptr 0x4000 |};
     mmio := ∅; ter_reg := 0; regmap_regs := ∅; log := [] |}.

(** The event device of channel [c], with the handler [h]. *)
Definition device (c : nat) (h : option (M unit)) : ingenic_clock_event_device :=
  {| cevt := {| event_handler := h |}; channel := c;
     name := "ingenic-tcu-chan" +:+ pretty (Z.of_nat c) |}.

(** What the completed run of a computation returned and left behind. *)
Definition result_of {A : Type} (r : res A) : option A :=
  match r with
  | Done a _ => Some a
  | _ => None
  end.

Definition world_of {A : Type} (r : res A) : world :=
  match r with
  | Done _ w | Bug w | Wild w => w
  end.

(** The state in which the interrupt handler has disarmed channel [ch]. *)
Definition disarmed (ch : ingenic_tcu_channel) (w : world) : world :=
  with_log (log w ++ [EvTimerDisable (ter (tcu w)) (idx ch)])
    (with_ter_reg (Z.clearbit (ter_reg w) (idx ch)) w).

(** A handler that arms the channel again for 500 ticks, as the clock-event
    framework does. *)
Definition rearm (c : nat) : M unit :=
  ingenic_tcu_cevt_set_next 500 (device c None);;; ret tt.

(** Channel 0 of a unit of two channels is claimed; its clock is [Ptr 0x5000]. *)
Definition channel0_claimed : world :=
  with_tcu
    {| base := 0xb0002000; num_channels := 2;
       channels := [ {| idx := 0; clk := Ptr 0x5000 |};
                     {| idx := 1; clk := Ptr 0 |} ];
       requested := 1; ter := Ptr 0x4000 |}
    two_channels.

(** Kernels in which the clock of a channel cannot be found (-ENOENT), or
    cannot be enabled (-EIO). *)
Definition no_clock : kernel :=
  with_clk_get (fun _ _ => ErrPtr 2) (nominal [0; 1] 2).

Definition dead_clock : kernel :=
  with_clk_prepare_enable (fun _ _ => -5) (nominal [0; 1] 2).

Definition with_syscon_node_to_regmap (f : list event -> Z -> ptr_err)
    (k : kernel) : kernel :=
  {| k_count_elems := k_count_elems k;
     k_read_u32_index := k_read_u32_index k;
     k_kzalloc := k_kzalloc k;
     k_syscon_lookup := k_syscon_lookup k;
     k_of_iomap := k_of_iomap k;
     k_clk_get := k_clk_get k;
     k_clk_prepare_enable := k_clk_prepare_enable k;
     k_clk_get_rate := k_clk_get_rate k;
     k_of_parse_phandle := k_of_parse_phandle k;
     k_syscon_node_to_regmap := f;
     k_regmap_update_bits := k_regmap_update_bits k;
     k_irq_of_parse_and_map := k_irq_of_parse_and_map k;
     k_request_irq := k_request_irq k;
     k_smp_processor_id := k_smp_processor_id k |}.

(** Kernels in which the "tcsr" node of a channel is missing, or has no
    register map (-ENODEV). *)
Definition no_node : kernel :=
  with_of_parse_phandle (fun _ _ _ => 0) (nominal [0; 1] 2).

Definition no_regmap : kernel :=
  with_syscon_node_to_regmap (fun _ _ => ErrPtr 19) (nominal [0; 1] 2).

(** A unit of two channels whose channel 1 was left configured by earlier
    use: every bit of its control register is set. *)
Definition stale_tcsr : world :=
  with_regmap_regs {[ (0x7001, 0) := 0xffff ]} two_channels.

(** The state in which channel [ch] has been released. *)
Definition released (ch : ingenic_tcu_channel) (w : world) : world :=
  with_log
    (log w ++ [EvClkDisableUnprepare (clk ch); EvClkPut (clk ch);
               EvClearBit (idx ch)])
    (with_tcu (with_requested (Z.clearbit (requested (tcu w)) (idx ch)) (tcu w))
       w).

(** A stretch of the log in which no event device is allocated. *)
Definition quiet (l : list event) : Prop :=
  forall p, ~ In (EvKzalloc ObjCevt p) l.

(** A kernel in which the interrupt line of a channel is taken (-EBUSY). *)
Definition busy_irq : kernel :=
  with_request_irq (fun _ _ _ => -16) (nominal [0; 1] 2).

(** What the failed setup of channel 0 logs on that kernel. *)
Definition busy_irq_log : list event :=
  [ EvTestAndSetBit 0 false; EvClkGet "timer0" (Ptr 0x5000);
    EvClkPrepareEnable (Ptr 0x5000) 0; EvOfParsePhandle "tcsr" 0 0x6000;
    EvSysconNodeToRegmap 0x6000 (Ptr 0x7000);
    EvRegmapUpdateBits (Ptr 0x7000) 0 0xffc0 0 0;
    EvClkGetRate (Ptr 0x5000) 12000000;
    EvKzalloc ObjCevt 0x3000; EvIrqOfParseAndMap 0 30;
    EvRequestIrq 30 "TCU0" (-16);
    EvIrqDisposeMapping 30; EvKfree 0x3000;
    EvClkDisableUnprepare (Ptr 0x5000); EvClkPut (Ptr 0x5000);
    EvClearBit 0 ].

(** A device tree that activates channel 2 of a unit of two channels. *)
Definition out_of_range : kernel := nominal [2] 2.

(** What the initializer has logged when it reaches the first entry of the
    "timers" property. *)
Definition bring_up_log (timers interrupts : Z) : list event :=
  [ EvPrInfo banner;
    EvCountElems "timers" 4 timers; EvCountElems "interrupts" 4 interrupts;
    EvKzalloc ObjTcu 0x1000; EvKzalloc (ObjChannels interrupts) 0x2000;
    EvSysconLookup "ter" (Ptr 0x4000); EvOfIomap 0 0xb0002000;
    EvReadU32Index "timers" 0 0 ].

Definition with_count_elems (f : list event -> string -> Z -> Z) (k : kernel)
  : kernel :=
  {| k_count_elems := f;
     k_read_u32_index := k_read_u32_index k;
     k_kzalloc := k_kzalloc k;
     k_syscon_lookup := k_syscon_lookup k;
     k_of_iomap := k_of_iomap k;
     k_clk_get := k_clk_get k;
     k_clk_prepare_enable := k_clk_prepare_enable k;
     k_clk_get_rate := k_clk_get_rate k;
     k_of_parse_phandle := k_of_parse_phandle k;
     k_syscon_node_to_regmap := k_syscon_node_to_regmap k;
     k_regmap_update_bits := k_regmap_update_bits k;
     k_irq_of_parse_and_map := k_irq_of_parse_and_map k;
     k_request_irq := k_request_irq k;
     k_smp_processor_id := k_smp_processor_id k |}.

(** A kernel that counts one entry in the "timers" property and then fails
    to read it (-EINVAL). *)
Definition unreadable_list : kernel :=
  with_count_elems
    (fun _ prop _ => if String.eqb prop "timers" then 1 else 2)
    (nominal [] 2).

Definition with_syscon_lookup (f : list event -> string -> ptr_err)
    (k : kernel) : kernel :=
  {| k_count_elems := k_count_elems k;
     k_read_u32_index := k_read_u32_index k;
     k_kzalloc := k_kzalloc k;
     k_syscon_lookup := f;
     k_of_iomap := k_of_iomap k;
     k_clk_get := k_clk_get k;
     k_clk_prepare_enable := k_clk_prepare_enable k;
     k_clk_get_rate := k_clk_get_rate k;
     k_of_parse_phandle := k_of_parse_phandle k;
     k_syscon_node_to_regmap := k_syscon_node_to_regmap k;
     k_regmap_update_bits := k_regmap_update_bits k;
     k_irq_of_parse_and_map := k_irq_of_parse_and_map k;
     k_request_irq := k_request_irq k;
     k_smp_processor_id := k_smp_processor_id k |}.

(** A kernel in which the "ter" register map is missing (-ENODEV). *)
Definition no_ter : kernel :=
  with_syscon_lookup (fun _ _ => ErrPtr 19) (nominal [0; 1] 2).

(** ** The traces of a channel setup *)

(** The name of the clock and of the event device of channel [i]. *)
Definition clock_name (i : Z) : string := "timer" +:+ pretty i.

Definition device_name (i : Z) : string := "ingenic-tcu-chan" +:+ pretty i.

(** What a successful claim of channel [i] logs, with clock [c]. *)
Definition claim_events (i : Z) (c : ptr_err) : list event :=
  [ EvTestAndSetBit i false; EvClkGet (clock_name i) c;
    EvClkPrepareEnable c 0 ].

(** What the release of channel [i] logs, with clock [c]. *)
Definition release_events (i : Z) (c : ptr_err) : list event :=
  [ EvClkDisableUnprepare c; EvClkPut c; EvClearBit i ].

(** What a successful reset of channel [i] logs. *)
Definition reset_events (i node t : Z) : list event :=
  [ EvOfParsePhandle "tcsr" i node; EvSysconNodeToRegmap node (Ptr t);
    EvRegmapUpdateBits (Ptr t) 0 0xffc0 0 0 ].

(** The logs of the completed runs of [ingenic_tcu_setup_cevt] for entry
    [ix], on a channel of index [i], by the value returned. *)
Inductive setup_trace (ix i : Z) : Z -> list event -> Prop :=
| setup_busy :
    setup_trace ix i (- EBUSY) [EvTestAndSetBit i true]
| setup_no_clock (e : positive) :
    setup_trace ix i (Z.neg e)
      [ EvTestAndSetBit i false; EvClkGet (clock_name i) (ErrPtr e);
        EvClearBit i ]
| setup_dead_clock (p err : Z) :
    err <> 0 ->
    setup_trace ix i err
      [ EvTestAndSetBit i false; EvClkGet (clock_name i) (Ptr p);
        EvClkPrepareEnable (Ptr p) err; EvClkPut (Ptr p); EvClearBit i ]
| setup_no_node (p : Z) :
    setup_trace ix i (- EINVAL)
      (claim_events i (Ptr p) ++ [EvOfParsePhandle "tcsr" i 0]
       ++ release_events i (Ptr p))
| setup_no_regmap (p node : Z) (e : positive) :
    node <> 0 ->
    setup_trace ix i (Z.neg e)
      (claim_events i (Ptr p)
       ++ [ EvOfParsePhandle "tcsr" i node;
            EvSysconNodeToRegmap node (ErrPtr e) ]
       ++ release_events i (Ptr p))
| setup_reset_failed (p node t err : Z) :
    node <> 0 -> err <> 0 ->
    setup_trace ix i err
      (claim_events i (Ptr p)
       ++ [ EvOfParsePhandle "tcsr" i node;
            EvSysconNodeToRegmap node (Ptr t);
            EvRegmapUpdateBits (Ptr t) 0 0xffc0 0 err ]
       ++ release_events i (Ptr p))
| setup_no_rate (p node t : Z) :
    node <> 0 ->
    setup_trace ix i (- EINVAL)
      (claim_events i (Ptr p) ++ reset_events i node t
       ++ [EvClkGetRate (Ptr p) 0]
       ++ release_events i (Ptr p))
| setup_no_memory (p node t rate : Z) :
    node <> 0 -> rate <> 0 ->
    setup_trace ix i (- ENOMEM)
      (claim_events i (Ptr p) ++ reset_events i node t
       ++ [EvClkGetRate (Ptr p) rate; EvKzalloc ObjCevt 0]
       ++ release_events i (Ptr p))
| setup_no_irq (p node t rate jz : Z) :
    node <> 0 -> rate <> 0 -> jz <> 0 ->
    setup_trace ix i (- EINVAL)
      (claim_events i (Ptr p) ++ reset_events i node t
       ++ [ EvClkGetRate (Ptr p) rate; EvKzalloc ObjCevt jz;
            EvIrqOfParseAndMap ix 0; EvKfree jz ]
       ++ release_events i (Ptr p))
| setup_irq_taken (p node t rate jz virq err : Z) (devname : string) :
    node <> 0 -> rate <> 0 -> jz <> 0 -> virq <> 0 -> err <> 0 ->
    ingenic_tcu_timer_names !! Z.to_nat ix = Some devname ->
    setup_trace ix i err
      (claim_events i (Ptr p) ++ reset_events i node t
       ++ [ EvClkGetRate (Ptr p) rate; EvKzalloc ObjCevt jz;
            EvIrqOfParseAndMap ix virq; EvRequestIrq virq devname err;
            EvIrqDisposeMapping virq; EvKfree jz ]
       ++ release_events i (Ptr p))
| setup_registered (p node t rate jz virq cpu : Z) (devname : string) :
    node <> 0 -> rate <> 0 -> jz <> 0 -> virq <> 0 ->
    ingenic_tcu_timer_names !! Z.to_nat ix = Some devname ->
    setup_trace ix i 0
      (claim_events i (Ptr p) ++ reset_events i node t
       ++ [ EvClkGetRate (Ptr p) rate; EvKzalloc ObjCevt jz;
            EvIrqOfParseAndMap ix virq; EvRequestIrq virq devname 0;
            EvClockeventsRegister (device_name i) cpu CLOCK_EVT_FEAT_ONESHOT
              200 rate 10 65535 ]).

(** The number of event devices registered in a log. *)
Definition is_registration (e : event) : bool :=
  match e with
  | EvClockeventsRegister _ _ _ _ _ _ _ => true
  | _ => false
  end.

Definition registrations (l : list event) : nat :=
  length (List.filter is_registration l).


(** The indices the channels of the unit carry, in the order of the array. *)
Definition indices (w : world) : list Z := idx <$> channels (tcu w).

(** A computation that leaves the array of channels its length and every
    channel its index, however it ends. *)
Definition keeps_indices {A : Type} (m : M A) : Prop :=
  forall w, indices (world_of (m w)) = indices w.

(** * Properties *)

(** ** Arithmetic of registers and bitmaps *)

Lemma u32_range z : 0 <= u32 z < 2 ^ 32.
Proof. unfold u32. apply Z.mod_pos_bound. lia. Qed.

Lemma u32_small z : 0 <= z < 2 ^ 32 -> u32 z = z.
Proof. intros H. unfold u32. apply Z.mod_small. exact H. Qed.

Lemma REG_TDFRc_TCNTc_apart c : REG_TDFRc c <> REG_TCNTc c.
Proof.
  unfold REG_TDFRc, REG_TCNTc, REG_TDFR0, REG_TCNT0.
  pose proof (u32_range (c * CHANNEL_STRIDE)) as Hk.
  set (k := u32 (c * CHANNEL_STRIDE)) in *.
  unfold u32. change (2 ^ 32) with 4294967296 in *.
  Z.div_mod_to_equations. lia.
Qed.

Lemma setbit_set a n : Z.testbit a n = true -> Z.setbit a n = a.
Proof.
  intros H. apply Z.bits_inj'. intros m Hm.
  destruct (Z.eq_dec n m) as [->|Hne].
  - rewrite Z.setbit_eq by lia. symmetry. exact H.
  - rewrite Z.setbit_neq; [reflexivity | | exact Hne].
    destruct (Z.lt_ge_cases n 0) as [Hn|Hn]; [|exact Hn].
    rewrite Z.testbit_neg_r in H by exact Hn. discriminate.
Qed.

Lemma clearbit_setbit a n :
  0 <= n -> Z.testbit a n = false -> Z.clearbit (Z.setbit a n) n = a.
Proof.
  intros Hn H. apply Z.bits_inj'. intros m Hm.
  destruct (Z.eq_dec n m) as [->|Hne].
  - rewrite Z.clearbit_eq. symmetry. exact H.
  - rewrite Z.clearbit_neq by exact Hne.
    rewrite Z.setbit_neq; [reflexivity | exact Hn | exact Hne].
Qed.

(** ** Arming and disarming a channel *)

Ltac simpl_world :=
  cbn [tcu mmio ter_reg regmap_regs log with_tcu with_mmio with_ter_reg
       with_regmap_regs with_log with_requested with_channels
       base num_channels channels requested ter].

Ltac simpl_world_in H :=
  cbn [tcu mmio ter_reg regmap_regs log with_tcu with_mmio with_ter_reg
       with_regmap_regs with_log with_requested with_channels
       base num_channels channels requested ter] in H.

Ltac step_monad :=
  unfold bind, ret, emit, history, the_tcu, channel_at, store_clk,
    test_and_set_bit, clear_bit, writel, tcu_timer_enable, tcu_timer_disable;
  simpl_world.

(** C3. For ticks in [0, 65535], arming succeeds; it writes the ticks to the
    reload register of the channel, then 0 to its counter register, then sets
    the bit of the channel in the shared enable register, in this order and
    with no other effect; afterwards the reload register holds the ticks, the
    counter holds 0 and the enable bit is set. *)
Theorem set_next_arms (next : Z) (jzcevt : ingenic_clock_event_device)
    (ch : ingenic_tcu_channel) (w : world) :
  channels (tcu w) !! channel jzcevt = Some ch ->
  0 <= idx ch ->
  0 <= next <= 65535 ->
  exists w',
    ingenic_tcu_cevt_set_next next jzcevt w = Done 0 w' /\
    log w' = log w ++
      [ EvWritel next (base (tcu w) + REG_TDFRc (idx ch));
        EvWritel 0 (base (tcu w) + REG_TCNTc (idx ch));
        EvTimerEnable (ter (tcu w)) (idx ch) ] /\
    readl w' (base (tcu w) + REG_TDFRc (idx ch)) = Some next /\
    readl w' (base (tcu w) + REG_TCNTc (idx ch)) = Some 0 /\
    Z.testbit (ter_reg w') (idx ch) = true /\
    tcu w' = tcu w /\
    regmap_regs w' = regmap_regs w.
Proof.
  intros Hch Hidx Hnext.
  unfold ingenic_tcu_cevt_set_next. step_monad. rewrite Hch.
  destruct (decide (next > 65535)) as [Hbig|_]; [lia|].
  step_monad. rewrite Hch. step_monad.
  rewrite (u32_small next) by (change (2 ^ 32) with 4294967296; lia).
  eexists. split; [reflexivity|].
  unfold readl. simpl_world.
  split; [rewrite <- !app_assoc; reflexivity|].
  split.
  { rewrite lookup_insert_ne.
    - apply lookup_insert_eq.
    - pose proof (REG_TDFRc_TCNTc_apart (idx ch)). lia. }
  split; [apply lookup_insert_eq|].
  split; [apply Z.setbit_eq; exact Hidx|].
  split; [destruct w as [t ? ? ? ?]; destruct t|]; reflexivity.
Qed.

Lemma set_next_arms_witness :
  exists w',
    ingenic_tcu_cevt_set_next 1000 (device 0 None) two_channels = Done 0 w' /\
    log w' =
      [ EvWritel 1000 0xb0002040; EvWritel 0 0xb0002048;
        EvTimerEnable (Ptr 0x4000) 0 ] /\
    readl w' 0xb0002040 = Some 1000 /\
    readl w' 0xb0002048 = Some 0 /\
    Z.testbit (ter_reg w') 0 = true /\
    tcu w' = tcu two_channels /\
    regmap_regs w' = regmap_regs two_channels.
Proof.
  apply (set_next_arms 1000 (device 0 None) {| idx := 0; clk := Ptr 0 |}
           two_channels).
  - reflexivity.
  - simpl. lia.
  - lia.
Defined.

(** C4. For ticks above 65535, arming fails with -EINVAL and changes nothing:
    no register is written, the enable register keeps its value and nothing
    is logged. *)
Theorem set_next_rejects (next : Z) (jzcevt : ingenic_clock_event_device)
    (ch : ingenic_tcu_channel) (w : world) :
  channels (tcu w) !! channel jzcevt = Some ch ->
  next > 65535 ->
  ingenic_tcu_cevt_set_next next jzcevt w = Done (- EINVAL) w.
Proof.
  intros Hch Hnext.
  unfold ingenic_tcu_cevt_set_next. step_monad. rewrite Hch.
  destruct (decide (next > 65535)) as [_|Hsmall]; [reflexivity|lia].
Qed.

Lemma set_next_rejects_witness :
  ingenic_tcu_cevt_set_next 65536 (device 1 None) two_channels
  = Done (- EINVAL) two_channels.
Proof.
  apply (set_next_rejects 65536 (device 1 None) {| idx := 1; clk := Ptr 0 |}
           two_channels).
  - reflexivity.
  - lia.
Defined.

(** ** The interrupt handler *)

Lemma disarmed_bit ch w : Z.testbit (ter_reg (disarmed ch w)) (idx ch) = false.
Proof. unfold disarmed. simpl_world. apply Z.clearbit_eq. Qed.

(** C7. When a handler is registered, the interrupt handler of a channel runs
    it in a state in which the enable bit of the channel is already clear:
    the disarming is the only effect that precedes the call, and the handler
    returns into the interrupt handler, which reports the interrupt as
    handled. *)
Theorem cevt_cb_disarms_before_handler (jzcevt : ingenic_clock_event_device)
    (handler : M unit) (ch : ingenic_tcu_channel) (w : world) :
  channels (tcu w) !! channel jzcevt = Some ch ->
  event_handler (cevt jzcevt) = Some handler ->
  exists w1,
    ingenic_tcu_cevt_cb jzcevt w = (handler;;; ret IRQ_HANDLED) w1 /\
    log w1 = log w ++ [EvTimerDisable (ter (tcu w)) (idx ch); EvEventHandler] /\
    Z.testbit (ter_reg w1) (idx ch) = false /\
    ter_reg w1 = Z.clearbit (ter_reg w) (idx ch) /\
    mmio w1 = mmio w /\ tcu w1 = tcu w.
Proof.
  intros Hch Hh.
  exists (with_log (log (disarmed ch w) ++ [EvEventHandler]) (disarmed ch w)).
  split.
  - unfold ingenic_tcu_cevt_cb. rewrite Hh. step_monad. rewrite Hch.
    reflexivity.
  - unfold disarmed. simpl_world.
    split; [rewrite <- app_assoc; reflexivity|].
    split; [apply Z.clearbit_eq|].
    split; [reflexivity|].
    split; [reflexivity|].
    destruct w as [t ? ? ? ?]; destruct t; reflexivity.
Qed.

Lemma cevt_cb_disarms_before_handler_witness :
  exists w1,
    ingenic_tcu_cevt_cb (device 0 (Some (rearm 0))) two_channels
    = (rearm 0;;; ret IRQ_HANDLED) w1 /\
    log w1 = [EvTimerDisable (Ptr 0x4000) 0; EvEventHandler] /\
    Z.testbit (ter_reg w1) 0 = false /\
    ter_reg w1 = Z.clearbit 0 0 /\
    mmio w1 = mmio two_channels /\ tcu w1 = tcu two_channels.
Proof.
  apply (cevt_cb_disarms_before_handler (device 0 (Some (rearm 0))) (rearm 0)
           {| idx := 0; clk := Ptr 0 |} two_channels).
  - reflexivity.
  - reflexivity.
Defined.

(** C10. When no handler is registered, the interrupt handler disarms the
    channel, calls nothing and reports the interrupt as handled. *)
Theorem cevt_cb_without_handler (jzcevt : ingenic_clock_event_device)
    (ch : ingenic_tcu_channel) (w : world) :
  channels (tcu w) !! channel jzcevt = Some ch ->
  event_handler (cevt jzcevt) = None ->
  ingenic_tcu_cevt_cb jzcevt w = Done IRQ_HANDLED (disarmed ch w) /\
  log (disarmed ch w) = log w ++ [EvTimerDisable (ter (tcu w)) (idx ch)] /\
  Z.testbit (ter_reg (disarmed ch w)) (idx ch) = false.
Proof.
  intros Hch Hh.
  split; [|split].
  - unfold ingenic_tcu_cevt_cb. rewrite Hh. step_monad. rewrite Hch.
    reflexivity.
  - reflexivity.
  - apply disarmed_bit.
Qed.

Lemma cevt_cb_without_handler_witness :
  ingenic_tcu_cevt_cb (device 1 None) two_channels
  = Done IRQ_HANDLED (disarmed {| idx := 1; clk := Ptr 0 |} two_channels) /\
  log (disarmed {| idx := 1; clk := Ptr 0 |} two_channels)
  = [EvTimerDisable (Ptr 0x4000) 1] /\
  Z.testbit (ter_reg (disarmed {| idx := 1; clk := Ptr 0 |} two_channels)) 1
  = false.
Proof.
  apply (cevt_cb_without_handler (device 1 None) {| idx := 1; clk := Ptr 0 |}
           two_channels).
  - reflexivity.
  - reflexivity.
Defined.

(** ** Claiming a channel *)

(** C5. Claiming a channel whose bit is already set fails with -EBUSY. The
    unit is left as it was, bitmap and clock handles included; the test of the
    bit is the only effect, and no clock call is made. *)
Theorem req_channel_busy (K : kernel) (c : nat) (ch : ingenic_tcu_channel)
    (w : world) :
  channels (tcu w) !! c = Some ch ->
  Z.testbit (requested (tcu w)) (idx ch) = true ->
  exists w',
    ingenic_tcu_req_channel K c w = Done (- EBUSY) w' /\
    tcu w' = tcu w /\
    log w' = log w ++ [EvTestAndSetBit (idx ch) true] /\
    mmio w' = mmio w /\ ter_reg w' = ter_reg w /\
    regmap_regs w' = regmap_regs w.
Proof.
  intros Hch Hbit.
  unfold ingenic_tcu_req_channel. step_monad. rewrite Hch. step_monad.
  rewrite Hbit. eexists. split; [reflexivity|]. simpl_world.
  rewrite (setbit_set _ _ Hbit).
  split; [destruct w as [t ? ? ? ?]; destruct t; reflexivity|].
  repeat split; reflexivity.
Qed.

Lemma req_channel_busy_witness :
  exists w',
    ingenic_tcu_req_channel (nominal [0; 1] 2) 0 channel0_claimed
    = Done (- EBUSY) w' /\
    tcu w' = tcu channel0_claimed /\
    log w' = [EvTestAndSetBit 0 true] /\
    mmio w' = mmio channel0_claimed /\ ter_reg w' = ter_reg channel0_claimed /\
    regmap_regs w' = regmap_regs channel0_claimed.
Proof.
  apply (req_channel_busy (nominal [0; 1] 2) 0%nat
           {| idx := 0; clk := Ptr 0x5000 |} channel0_claimed).
  - reflexivity.
  - reflexivity.
Defined.

Lemma lookup_store (cs : list ingenic_tcu_channel) (c : nat)
    (ch ch' : ingenic_tcu_channel) :
  cs !! c = Some ch -> <[c := ch']> cs !! c = Some ch'.
Proof.
  intros H. apply list_lookup_insert_eq. eapply lookup_lt_Some. exact H.
Qed.

Ltac run_req_channel Hch Hbit :=
  unfold ingenic_tcu_req_channel, clk_get, clk_prepare_enable, clk_put;
  step_monad; rewrite Hch; step_monad; rewrite Hbit; step_monad;
  rewrite Hch; step_monad; rewrite (lookup_store _ _ _ _ Hch);
  cbn [clk idx with_clk].

(** C6. Claiming a free channel: when the clock lookup fails, the bit is
    cleared again and the error of the lookup is returned; when enabling the
    clock fails, the clock handle is released, then the bit is cleared, and
    the error of the enabling is returned. In both cases the bitmap is what it
    was before the claim, and whenever such a claim fails the bit of the
    channel reads clear. *)
Theorem req_channel_rolls_back (K : kernel) (c : nat) (ch : ingenic_tcu_channel)
    (w : world) :
  channels (tcu w) !! c = Some ch ->
  0 <= idx ch ->
  Z.testbit (requested (tcu w)) (idx ch) = false ->
  let h1 := log w ++ [EvTestAndSetBit (idx ch) false] in
  let name := "timer" +:+ pretty (idx ch) in
  let r := k_clk_get K h1 name in
  let h2 := h1 ++ [EvClkGet name r] in
  let err := k_clk_prepare_enable K h2 r in
  (IS_ERR r = true ->
   exists w',
     ingenic_tcu_req_channel K c w = Done (PTR_ERR r) w' /\
     PTR_ERR r < 0 /\
     log w' = h2 ++ [EvClearBit (idx ch)] /\
     requested (tcu w') = requested (tcu w)) /\
  (IS_ERR r = false -> err <> 0 ->
   exists w',
     ingenic_tcu_req_channel K c w = Done err w' /\
     log w' = h2 ++ [EvClkPrepareEnable r err; EvClkPut r; EvClearBit (idx ch)] /\
     requested (tcu w') = requested (tcu w)) /\
  (forall e w',
     ingenic_tcu_req_channel K c w = Done e w' -> e <> 0 ->
     Z.testbit (requested (tcu w')) (idx ch) = false).
Proof.
  intros Hch Hidx Hbit h1 name r h2 err.
  split; [|split].
  - intros Hr. run_req_channel Hch Hbit.
    fold h1 name r. rewrite Hr. step_monad.
    eexists. split; [reflexivity|]. simpl_world.
    split; [destruct r; [discriminate Hr | simpl; lia]|].
    split; [reflexivity|].
    apply clearbit_setbit; assumption.
  - intros Hr Herr. run_req_channel Hch Hbit.
    fold h1 name r. rewrite Hr. step_monad. fold h2 err.
    destruct (decide (err <> 0)) as [_|Hz]; [|contradiction].
    step_monad.
    eexists. split; [reflexivity|]. simpl_world.
    split; [unfold h2; rewrite <- !app_assoc; reflexivity|].
    apply clearbit_setbit; assumption.
  - intros e w'. run_req_channel Hch Hbit.
    fold h1 name r. destruct (IS_ERR r).
    + step_monad. intros [= <- <-] _. simpl_world. apply Z.clearbit_eq.
    + step_monad. fold h2 err.
      destruct (decide (err <> 0)) as [_|Hz].
      * step_monad. intros [= <- <-] _. simpl_world. apply Z.clearbit_eq.
      * intros [= <- <-] He. contradiction.
Qed.

Lemma req_channel_rolls_back_witness :
  (exists w',
     ingenic_tcu_req_channel no_clock 0 two_channels = Done (-2) w' /\
     -2 < 0 /\
     log w' = [EvTestAndSetBit 0 false; EvClkGet "timer0" (ErrPtr 2);
               EvClearBit 0] /\
     requested (tcu w') = 0) /\
  (exists w',
     ingenic_tcu_req_channel dead_clock 1 two_channels = Done (-5) w' /\
     log w' = [EvTestAndSetBit 1 false; EvClkGet "timer1" (Ptr 0x5000);
               EvClkPrepareEnable (Ptr 0x5000) (-5); EvClkPut (Ptr 0x5000);
               EvClearBit 1] /\
     requested (tcu w') = 0).
Proof.
  split.
  - apply (req_channel_rolls_back no_clock 0%nat {| idx := 0; clk := Ptr 0 |}
             two_channels).
    + reflexivity.
    + simpl. lia.
    + reflexivity.
    + reflexivity.
  - apply (req_channel_rolls_back dead_clock 1%nat {| idx := 1; clk := Ptr 0 |}
             two_channels).
    + reflexivity.
    + simpl. lia.
    + reflexivity.
    + reflexivity.
    + simpl. lia.
Defined.

(** ** Resetting a channel *)

Lemma tcsr_mask : Z.land 0xffff (Z.lnot TCSR_RESERVED_BITS) = 0xffc0.
Proof. reflexivity. Qed.

Lemma testbit_tcsr_mask n :
  0 <= n -> Z.testbit 0xffc0 n = (6 <=? n) && (n <? 16).
Proof.
  intros Hn. change 0xffc0 with (Z.shiftl (Z.ones 10) 6).
  rewrite Z.shiftl_spec by exact Hn.
  destruct (Z.leb_spec 6 n) as [H6|H6].
  - rewrite Z.testbit_ones_nonneg by lia.
    destruct (Z.ltb_spec (n - 6) 10), (Z.ltb_spec n 16); (reflexivity || lia).
  - apply Z.testbit_neg_r. lia.
Qed.

Lemma update_bits_reset old n :
  0 <= n ->
  Z.testbit (update_bits old 0xffc0 0) n
  = if (6 <=? n) && (n <? 16) then false else Z.testbit old n.
Proof.
  intros Hn. unfold update_bits.
  rewrite Z.lor_spec, !Z.land_spec, Z.lnot_spec by exact Hn.
  rewrite Z.testbit_0_l, testbit_tcsr_mask by exact Hn.
  destruct ((6 <=? n) && (n <? 16)), (Z.testbit old n); reflexivity.
Qed.

Ltac run_reset_channel Hch :=
  unfold ingenic_tcu_reset_channel, of_parse_phandle, syscon_node_to_regmap,
    regmap_update_bits;
  step_monad; rewrite Hch; step_monad.

(** C9. Resetting a channel: when the node of the channel is missing, or its
    register map cannot be obtained, the reset fails (-EINVAL, or the error of
    the lookup) and writes nothing. Otherwise it makes one masked update of
    register 0 of that map, with mask 0xffc0 and value 0, and returns its
    status; on success bits 6 to 15 of the register are clear, every other
    bit and every other register is as before. *)
Theorem reset_channel_clears (K : kernel) (c : nat) (ch : ingenic_tcu_channel)
    (w : world) :
  channels (tcu w) !! c = Some ch ->
  let node := k_of_parse_phandle K (log w) "tcsr" (idx ch) in
  let h1 := log w ++ [EvOfParsePhandle "tcsr" (idx ch) node] in
  let tcsr := k_syscon_node_to_regmap K h1 node in
  let h2 := h1 ++ [EvSysconNodeToRegmap node tcsr] in
  let err := k_regmap_update_bits K h2 tcsr 0 0xffc0 0 in
  (node = 0 ->
   ingenic_tcu_reset_channel K c w = Done (- EINVAL) (with_log h1 w)) /\
  (node <> 0 -> IS_ERR tcsr = true ->
   ingenic_tcu_reset_channel K c w = Done (PTR_ERR tcsr) (with_log h2 w)) /\
  (node <> 0 -> IS_ERR tcsr = false ->
   exists w',
     ingenic_tcu_reset_channel K c w = Done err w' /\
     log w' = h2 ++ [EvRegmapUpdateBits tcsr 0 0xffc0 0 err] /\
     tcu w' = tcu w /\ mmio w' = mmio w /\ ter_reg w' = ter_reg w /\
     (forall key, key <> (PTR_ERR tcsr, 0) ->
        regmap_regs w' !! key = regmap_regs w !! key) /\
     (err <> 0 -> regmap_regs w' = regmap_regs w) /\
     (err = 0 ->
      forall n, 0 <= n ->
        Z.testbit (regmap_read w' tcsr 0) n
        = if (6 <=? n) && (n <? 16) then false
          else Z.testbit (regmap_read w tcsr 0) n)).
Proof.
  intros Hch node h1 tcsr h2 err.
  split; [|split].
  - intros Hnode. run_reset_channel Hch. fold node. rewrite Hnode.
    destruct (decide (0 = 0)) as [_|Hne]; [|contradiction].
    fold node in h1. unfold h1. rewrite Hnode. reflexivity.
  - intros Hnode Hr. run_reset_channel Hch. fold node.
    destruct (decide (node = 0)) as [Hz|_]; [contradiction|].
    step_monad. fold h1 tcsr. rewrite Hr. reflexivity.
  - intros Hnode Hr. run_reset_channel Hch. fold node.
    destruct (decide (node = 0)) as [Hz|_]; [contradiction|].
    step_monad. fold h1 tcsr. rewrite Hr. step_monad.
    rewrite tcsr_mask. fold h2 err.
    destruct (decide (err = 0)) as [Hz|Hnz].
    + eexists. split; [reflexivity|]. simpl_world.
      split; [reflexivity|].
      split; [destruct w as [t ? ? ? ?]; destruct t; reflexivity|].
      split; [reflexivity|]. split; [reflexivity|].
      split; [intros key Hkey; apply lookup_insert_ne; congruence|].
      split; [intros Hne; contradiction|].
      intros _ n Hn. unfold regmap_read at 1. simpl_world.
      rewrite lookup_insert_eq. cbn [default id].
      rewrite update_bits_reset by exact Hn.
      unfold regmap_read. simpl_world. reflexivity.
    + eexists. split; [reflexivity|]. simpl_world.
      split; [reflexivity|].
      split; [destruct w as [t ? ? ? ?]; destruct t; reflexivity|].
      split; [reflexivity|]. split; [reflexivity|].
      split; [intros key Hkey; reflexivity|].
      split; [intros _; reflexivity|].
      intros Hz. contradiction.
Qed.

Lemma reset_channel_clears_witness :
  ingenic_tcu_reset_channel no_node 0 two_channels
  = Done (- EINVAL) (with_log [EvOfParsePhandle "tcsr" 0 0] two_channels) /\
  ingenic_tcu_reset_channel no_regmap 0 two_channels
  = Done (-19)
      (with_log [EvOfParsePhandle "tcsr" 0 0x6000;
                 EvSysconNodeToRegmap 0x6000 (ErrPtr 19)] two_channels) /\
  exists w',
    ingenic_tcu_reset_channel (nominal [0; 1] 2) 1 stale_tcsr = Done 0 w' /\
    log w' = [EvOfParsePhandle "tcsr" 1 0x6001;
              EvSysconNodeToRegmap 0x6001 (Ptr 0x7001);
              EvRegmapUpdateBits (Ptr 0x7001) 0 0xffc0 0 0] /\
    Z.testbit (regmap_read w' (Ptr 0x7001) 0) 3 = true /\
    Z.testbit (regmap_read w' (Ptr 0x7001) 0) 7 = false.
Proof.
  split; [|split].
  - apply (reset_channel_clears no_node 0%nat {| idx := 0; clk := Ptr 0 |}
             two_channels).
    + reflexivity.
    + reflexivity.
  - apply (reset_channel_clears no_regmap 0%nat {| idx := 0; clk := Ptr 0 |}
             two_channels).
    + reflexivity.
    + simpl. lia.
    + reflexivity.
  - destruct (reset_channel_clears (nominal [0; 1] 2) 1%nat
                {| idx := 1; clk := Ptr 0 |} stale_tcsr) as (_ & _ & H).
    + reflexivity.
    + destruct H as (w' & Hrun & Hlog & _ & _ & _ & _ & _ & Hbits).
      * simpl. lia.
      * reflexivity.
      * exists w'. split; [exact Hrun|]. split; [exact Hlog|].
        split; [apply (Hbits eq_refl 3) | apply (Hbits eq_refl 7)]; lia.
Defined.

(** ** Setting up the event device of a channel *)

Lemma bind_done {A B : Type} (m : M A) (k : A -> M B) (w : world) (b : B)
    (w' : world) :
  bind m k w = Done b w' -> exists a w1, m w = Done a w1 /\ k a w1 = Done b w'.
Proof.
  unfold bind. destruct (m w) as [a w1|w1|w1]; [|discriminate|discriminate].
  intros H. exists a, w1. split; [reflexivity|exact H].
Qed.

Lemma free_channel_run (c : nat) (ch : ingenic_tcu_channel) (w : world) :
  channels (tcu w) !! c = Some ch ->
  ingenic_tcu_free_channel c w = Done tt (released ch w).
Proof.
  intros Hch. unfold ingenic_tcu_free_channel, clk_disable_unprepare, clk_put.
  step_monad. rewrite Hch. step_monad. unfold released.
  rewrite <- !app_assoc. reflexivity.
Qed.

Lemma quiet_nil : quiet [].
Proof. intros p H. exact H. Qed.

Lemma quiet_app l1 l2 : quiet l1 -> quiet l2 -> quiet (l1 ++ l2).
Proof.
  intros H1 H2 p Hin. apply in_app_or in Hin as [Hin|Hin].
  - exact (H1 p Hin).
  - exact (H2 p Hin).
Qed.

Lemma in_quiet_cons (pre rest : list event) (p q : Z) :
  quiet pre -> quiet rest ->
  In (EvKzalloc ObjCevt p) (pre ++ EvKzalloc ObjCevt q :: rest) -> p = q.
Proof.
  intros Hpre Hrest Hin. apply in_app_or in Hin as [Hin|Hin].
  - destruct (Hpre p Hin).
  - destruct Hin as [Hin|Hin].
    + injection Hin as ->. reflexivity.
    + destruct (Hrest p Hin).
Qed.

Ltac quiet_list :=
  let H := fresh "Hev" in
  intros ? H; cbn [In] in H;
  repeat (destruct H as [H|H]; [discriminate H|]); exact H.

Lemma req_channel_done (K : kernel) (c : nat) (e : Z) (w w1 : world) :
  ingenic_tcu_req_channel K c w = Done e w1 ->
  exists l, log w1 = log w ++ l /\ quiet l /\ is_Some (channels (tcu w1) !! c).
Proof.
  unfold ingenic_tcu_req_channel, clk_get, clk_prepare_enable, clk_put.
  step_monad.
  destruct (channels (tcu w) !! c) as [ch|] eqn:Hch; [|discriminate].
  step_monad.
  destruct (Z.testbit (requested (tcu w)) (idx ch)).
  { intros [= <- <-]. simpl_world. eexists. split; [reflexivity|].
    split; [quiet_list|]. rewrite Hch. eexists; reflexivity. }
  step_monad. rewrite Hch. step_monad. rewrite (lookup_store _ _ _ _ Hch).
  cbn [clk idx with_clk].
  generalize (k_clk_get K (log w ++ [EvTestAndSetBit (idx ch) false])
                ("timer" +:+ pretty (idx ch))).
  intros r. destruct (IS_ERR r).
  { step_monad. intros [= <- <-]. simpl_world. eexists.
    split; [rewrite <- !app_assoc; reflexivity|].
    split; [quiet_list|].
    rewrite (lookup_store _ _ _ _ Hch). eexists; reflexivity. }
  step_monad.
  match goal with
  | |- context [k_clk_prepare_enable K ?h ?a] =>
      generalize (k_clk_prepare_enable K h a)
  end.
  intros err. destruct (decide (err <> 0)).
  - step_monad. intros [= <- <-]. simpl_world. eexists.
    split; [rewrite <- !app_assoc; reflexivity|].
    split; [quiet_list|].
    rewrite (lookup_store _ _ _ _ Hch). eexists; reflexivity.
  - intros [= <- <-]. simpl_world. eexists.
    split; [rewrite <- !app_assoc; reflexivity|].
    split; [quiet_list|].
    rewrite (lookup_store _ _ _ _ Hch). eexists; reflexivity.
Qed.

Lemma reset_channel_done (K : kernel) (c : nat) (e : Z) (w w1 : world) :
  ingenic_tcu_reset_channel K c w = Done e w1 ->
  exists l, log w1 = log w ++ l /\ quiet l /\ tcu w1 = tcu w.
Proof.
  unfold ingenic_tcu_reset_channel, of_parse_phandle, syscon_node_to_regmap,
    regmap_update_bits.
  step_monad.
  destruct (channels (tcu w) !! c) as [ch|] eqn:Hch; [|discriminate].
  step_monad.
  generalize (k_of_parse_phandle K (log w) "tcsr" (idx ch)). intros node.
  assert (Ht : forall l, tcu (with_log l w) = tcu w)
    by (intros l; destruct w as [t ? ? ? ?]; destruct t; reflexivity).
  destruct (decide (node = 0)).
  { intros [= <- <-]. eexists. split; [reflexivity|].
    split; [quiet_list|apply Ht]. }
  step_monad.
  match goal with
  | |- context [k_syscon_node_to_regmap K ?h ?a] =>
      generalize (k_syscon_node_to_regmap K h a)
  end.
  intros tcsr. destruct (IS_ERR tcsr).
  { intros [= <- <-]. simpl_world. eexists.
    split; [rewrite <- !app_assoc; reflexivity|].
    split; [quiet_list|].
    destruct w as [t ? ? ? ?]; destruct t; reflexivity. }
  step_monad.
  match goal with
  | |- context [k_regmap_update_bits K ?h ?a ?b ?c ?d] =>
      generalize (k_regmap_update_bits K h a b c d)
  end.
  intros err. destruct (decide (err = 0)).
  - intros [= <- <-]. simpl_world. eexists.
    split; [rewrite <- !app_assoc; reflexivity|].
    split; [quiet_list|].
    destruct w as [t ? ? ? ?]; destruct t; reflexivity.
  - intros [= <- <-]. simpl_world. eexists.
    split; [rewrite <- !app_assoc; reflexivity|].
    split; [quiet_list|].
    destruct w as [t ? ? ? ?]; destruct t; reflexivity.
Qed.

Lemma released_spec (ch : ingenic_tcu_channel) (w : world) :
  log (released ch w)
  = log w ++ [EvClkDisableUnprepare (clk ch); EvClkPut (clk ch);
              EvClearBit (idx ch)] /\
  channels (tcu (released ch w)) = channels (tcu w) /\
  Z.testbit (requested (tcu (released ch w))) (idx ch) = false.
Proof.
  unfold released. simpl_world.
  split; [reflexivity|]. split; [reflexivity|]. apply Z.clearbit_eq.
Qed.

(** C8. When the setup of a channel fails after the event device has been
    allocated, it ends with the unwinding in reverse order of acquisition.
    When the interrupt cannot be mapped: free the device, disable and release
    the clock, clear the bit. When the interrupt cannot be requested: dispose
    of the mapping, free the device, disable and release the clock, clear the
    bit. Nothing follows, and the bit of the channel reads clear. *)
Theorem setup_cevt_unwinds (K : kernel) (ix : Z) (w w' : world) (err p : Z)
    (l : list event) :
  ingenic_tcu_setup_cevt K ix w = Done err w' ->
  err <> 0 ->
  log w' = log w ++ l ->
  In (EvKzalloc ObjCevt p) l ->
  p <> 0 ->
  exists ch pre,
    channels (tcu w') !! Z.to_nat ix = Some ch /\
    Z.testbit (requested (tcu w')) (idx ch) = false /\
    quiet pre /\
    ((err = - EINVAL /\
      l = pre ++
          [ EvKzalloc ObjCevt p; EvIrqOfParseAndMap ix 0;
            EvKfree p;
            EvClkDisableUnprepare (clk ch); EvClkPut (clk ch);
            EvClearBit (idx ch) ]) \/
     (exists virq devname,
        virq <> 0 /\
        l = pre ++
            [ EvKzalloc ObjCevt p; EvIrqOfParseAndMap ix virq;
              EvRequestIrq virq devname err;
              EvIrqDisposeMapping virq; EvKfree p;
              EvClkDisableUnprepare (clk ch); EvClkPut (clk ch);
              EvClearBit (idx ch) ])).
Proof.
  intros Hrun Herr Hl Hin Hp.
  unfold ingenic_tcu_setup_cevt in Hrun.
  apply bind_done in Hrun as (e1 & w1 & Hreq & Hrun).
  apply req_channel_done in Hreq as (l1 & Hl1 & Hq1 & [ch Hch]).
  destruct (decide (e1 <> 0)) as [He1|He1].
  { injection Hrun as <- <-. rewrite Hl1 in Hl. apply app_inv_head in Hl.
    subst l. destruct (Hq1 p Hin). }
  apply bind_done in Hrun as (e2 & w2 & Hreset & Hrun).
  apply reset_channel_done in Hreset as (l2 & Hl2 & Hq2 & Ht2).
  rewrite <- Ht2 in Hch. rewrite Hl1 in Hl2. rewrite <- app_assoc in Hl2.
  pose proof (quiet_app _ _ Hq1 Hq2) as Hq. clear Hl1 Hq1 Hq2 Ht2 w1.
  set (acc := l1 ++ l2) in *. clearbody acc. clear l1 l2.
  destruct (decide (e2 <> 0)) as [He2|He2].
  { unfold bind in Hrun. rewrite (free_channel_run _ _ _ Hch) in Hrun.
    injection Hrun as <- <-.
    destruct (released_spec ch w2) as (Hlog & _ & _).
    rewrite Hlog, Hl2, <- app_assoc in Hl. apply app_inv_head in Hl. subst l.
    exfalso. revert Hin. apply quiet_app; [exact Hq|quiet_list]. }
  revert Hrun. unfold clk_get_rate, kzalloc, irq_of_parse_and_map, kfree,
    request_irq, irq_dispose_mapping, timer_name, smp_processor_id,
    clockevents_config_and_register.
  step_monad. rewrite Hch. step_monad.
  generalize (k_clk_get_rate K (log w2) (clk ch)). intros rate.
  destruct (decide (rate = 0)) as [Hrate|Hrate].
  { step_monad. rewrite (free_channel_run _ ch) by exact Hch.
    intros [= <- <-].
    match goal with
    | H : log (released ch ?v) = _ |- _ =>
        destruct (released_spec ch v) as (Hlog & _ & _)
    end.
    rewrite Hlog in Hl. simpl_world_in Hl.
    rewrite Hl2, <- !app_assoc in Hl. apply app_inv_head in Hl. subst l.
    exfalso. revert Hin. apply quiet_app; [exact Hq|quiet_list]. }
  step_monad.
  match goal with
  | |- context [k_kzalloc K ?h ObjCevt] => generalize (k_kzalloc K h ObjCevt)
  end.
  intros jz.
  destruct (decide (jz = 0)) as [Hjz|Hjz].
  { step_monad. rewrite (free_channel_run _ ch) by exact Hch.
    intros [= <- <-].
    match goal with
    | H : log (released ch ?v) = _ |- _ =>
        destruct (released_spec ch v) as (Hlog & _ & _)
    end.
    rewrite Hlog in Hl. simpl_world_in Hl.
    rewrite Hl2, <- !app_assoc in Hl. apply app_inv_head in Hl. subst l.
    exfalso. apply in_app_or in Hin as [Hin|Hin]; [exact (Hq p Hin)|].
    cbn [app In] in Hin.
    repeat (destruct Hin as [Hin|Hin]; [discriminate Hin|]).
    destruct Hin as [Hin|Hin]; [congruence|].
    repeat (destruct Hin as [Hin|Hin]; [discriminate Hin|]). exact Hin. }
  step_monad.
  match goal with
  | |- context [k_irq_of_parse_and_map K ?h ?a] =>
      generalize (k_irq_of_parse_and_map K h a)
  end.
  intros virq.
  destruct (decide (virq = 0)) as [Hvirq|Hvirq].
  { step_monad. rewrite (free_channel_run _ ch) by exact Hch.
    intros [= <- <-].
    match goal with
    | H : log (released ch ?v) = _ |- _ =>
        destruct (released_spec ch v) as (Hlog & Hcs & Hbit)
    end.
    rewrite Hlog in Hl. simpl_world_in Hl. simpl_world_in Hcs.
    rewrite Hl2, <- !app_assoc in Hl. apply app_inv_head in Hl. subst l.
    assert (Hpre : quiet (acc ++ [EvClkGetRate (clk ch) rate]))
      by (apply quiet_app; [exact Hq|quiet_list]).
    exists ch, (acc ++ [EvClkGetRate (clk ch) rate]). rewrite Hcs.
    split; [exact Hch|]. split; [exact Hbit|]. split; [exact Hpre|].
    left. split; [reflexivity|].
    rewrite app_assoc in Hin.
    apply in_quiet_cons in Hin; [|exact Hpre|quiet_list].
    subst p virq. rewrite <- app_assoc. reflexivity. }
  step_monad.
  destruct (ingenic_tcu_timer_names !! Z.to_nat ix) as [devname|];
    [|discriminate].
  step_monad.
  match goal with
  | |- context [k_request_irq K ?h ?a ?b] => generalize (k_request_irq K h a b)
  end.
  intros e3.
  destruct (decide (e3 <> 0)) as [He3|He3].
  - step_monad. rewrite (free_channel_run _ ch) by exact Hch.
    intros [= <- <-].
    match goal with
    | H : log (released ch ?v) = _ |- _ =>
        destruct (released_spec ch v) as (Hlog & Hcs & Hbit)
    end.
    rewrite Hlog in Hl. simpl_world_in Hl. simpl_world_in Hcs.
    rewrite Hl2, <- !app_assoc in Hl. apply app_inv_head in Hl. subst l.
    assert (Hpre : quiet (acc ++ [EvClkGetRate (clk ch) rate]))
      by (apply quiet_app; [exact Hq|quiet_list]).
    exists ch, (acc ++ [EvClkGetRate (clk ch) rate]). rewrite Hcs.
    split; [exact Hch|]. split; [exact Hbit|]. split; [exact Hpre|].
    right. exists virq, devname. split; [exact Hvirq|].
    rewrite app_assoc in Hin.
    apply in_quiet_cons in Hin; [|exact Hpre|quiet_list].
    subst p. rewrite <- app_assoc. reflexivity.
  - step_monad. rewrite Hch. step_monad. intros [= <- <-]. contradiction.
Qed.

Lemma setup_cevt_unwinds_witness :
  exists ch pre,
    channels (tcu (world_of (ingenic_tcu_setup_cevt busy_irq 0 two_channels)))
      !! Z.to_nat 0 = Some ch /\
    Z.testbit
      (requested (tcu (world_of (ingenic_tcu_setup_cevt busy_irq 0 two_channels))))
      (idx ch) = false /\
    quiet pre /\
    ((-16 = - EINVAL /\
      busy_irq_log = pre ++
          [ EvKzalloc ObjCevt 0x3000; EvIrqOfParseAndMap 0 0;
            EvKfree 0x3000;
            EvClkDisableUnprepare (clk ch); EvClkPut (clk ch);
            EvClearBit (idx ch) ]) \/
     (exists virq devname,
        virq <> 0 /\
        busy_irq_log = pre ++
            [ EvKzalloc ObjCevt 0x3000; EvIrqOfParseAndMap 0 virq;
              EvRequestIrq virq devname (-16);
              EvIrqDisposeMapping virq; EvKfree 0x3000;
              EvClkDisableUnprepare (clk ch); EvClkPut (clk ch);
              EvClearBit (idx ch) ])).
Proof.
  apply (setup_cevt_unwinds busy_irq 0 two_channels
           (world_of (ingenic_tcu_setup_cevt busy_irq 0 two_channels))
           (-16) 0x3000 busy_irq_log).
  - vm_compute. reflexivity.
  - lia.
  - vm_compute. reflexivity.
  - unfold busy_irq_log. cbn [In]. do 7 right. left. reflexivity.
  - lia.
Defined.

(** ** Bringing up the unit *)

Lemma setup_cevt_out_of_range (K : kernel) (ix : Z) (w : world) :
  (length (channels (tcu w)) <= Z.to_nat ix)%nat ->
  ingenic_tcu_setup_cevt K ix w = Wild w.
Proof.
  intros Hlen. unfold ingenic_tcu_setup_cevt, ingenic_tcu_req_channel.
  step_monad. rewrite (lookup_ge_None_2 _ _ Hlen). reflexivity.
Qed.

(** C1. On a unit of two channels whose "timers" property names channel 2,
    the initializer makes no range check: it reaches past the end of the
    array of channels, and it neither returns an error nor stops at a
    [BUG_ON]. Up to that point it has claimed nothing and called no clock
    function. *)
Theorem init_index_out_of_range :
  exists w',
    ingenic_tcu_init out_of_range boot = Wild w' /\
    length (channels (tcu w')) = 2%nat /\
    requested (tcu w') = 0 /\
    log w' = bring_up_log 1 2.
Proof.
  eexists. split; [vm_compute; reflexivity|].
  split; [reflexivity|]. split; reflexivity.
Qed.

Ltac run_init :=
  unfold ingenic_tcu_init, of_property_count_elems_of_size; step_monad.

(** C2, as the code has it. The initializer returns -EINVAL when the count of
    the "timers" property is negative, or the count of the "interrupts"
    property is negative or above 8, and then it has touched nothing; any
    other value it returns is 0. A failure to create the unit, to read an
    entry of the "timers" property or to set up a channel is not returned:
    the initializer stops at a [BUG_ON], in whatever round of the loop the
    failure occurs. *)
Theorem init_returns_or_stops (K : kernel) (w : world) :
  let h0 := log w ++ [EvPrInfo banner] in
  let nt := k_count_elems K h0 "timers" 4 in
  let h1 := h0 ++ [EvCountElems "timers" 4 nt] in
  let nc := k_count_elems K h1 "interrupts" 4 in
  let h2 := h1 ++ [EvCountElems "interrupts" 4 nc] in
  (nt < 0 -> ingenic_tcu_init K w = Done (- EINVAL) (with_log h1 w)) /\
  (0 <= nt -> nc < 0 \/ nc > 8 ->
   ingenic_tcu_init K w = Done (- EINVAL) (with_log h2 w)) /\
  (0 <= nt -> 0 <= nc <= 8 ->
   forall e w', ingenic_tcu_init K w = Done e w' -> e = 0) /\
  (0 <= nt -> 0 <= nc <= 8 ->
   forall r w1,
     ingenic_tcu_init_tcu K nc (with_log h2 w) = Done r w1 ->
     (IS_ERR r = true -> ingenic_tcu_init K w = Bug w1) /\
     (IS_ERR r = false ->
      forall wb,
        init_timers K (Z.to_nat nt) 0 w1 = Bug wb ->
        ingenic_tcu_init K w = Bug wb)) /\
  (forall n i w1,
     let r := k_read_u32_index K (log w1) "timers" i in
     let w2 := with_log (log w1 ++ [EvReadU32Index "timers" i (fst r)]) w1 in
     (fst r <> 0 -> init_timers K (S n) i w1 = Bug w2) /\
     (fst r = 0 ->
      forall e w3,
        ingenic_tcu_setup_cevt K (u32 (snd r)) w2 = Done e w3 ->
        (e <> 0 -> init_timers K (S n) i w1 = Bug w3) /\
        (e = 0 -> init_timers K (S n) i w1 = init_timers K n (i + 1) w3))).
Proof.
  intros h0 nt h1 nc h2.
  split; [|split; [|split; [|split]]].
  - intros Hnt. run_init. fold h0 nt h1.
    destruct (decide (nt < 0)) as [_|Hge]; [reflexivity|lia].
  - intros Hnt Hnc. run_init. fold h0 nt h1.
    destruct (decide (nt < 0)) as [Hlt|_]; [lia|].
    step_monad. fold nc h2.
    destruct (decide (nc < 0 \/ nc > 8)) as [_|Hok]; [reflexivity|].
    contradiction.
  - intros Hnt Hnc e w'. run_init. fold h0 nt h1.
    destruct (decide (nt < 0)) as [Hlt|_]; [lia|].
    step_monad. fold nc h2.
    destruct (decide (nc < 0 \/ nc > 8)) as [Hbad|_]; [lia|].
    fold (bind (A:=ptr_err) (B:=Z)).
    intros Hrun.
    apply bind_done in Hrun as (r & w1 & _ & Hrun).
    apply bind_done in Hrun as (u1 & w2 & _ & Hrun).
    apply bind_done in Hrun as (u2 & w3 & _ & Hrun).
    injection Hrun as <- _. reflexivity.
  - intros Hnt Hnc r w1 Htcu. split.
    + intros Hr. run_init. fold h0 nt h1.
      destruct (decide (nt < 0)) as [Hlt|_]; [lia|].
      step_monad. fold nc h2.
      destruct (decide (nc < 0 \/ nc > 8)) as [Hbad|_]; [lia|].
      simpl_world. change (with_log h2 (with_log h1 (with_log h0 w)))
        with (with_log h2 w).
      rewrite Htcu. unfold BUG_ON. rewrite Hr. reflexivity.
    + intros Hr wb Hloop. run_init. fold h0 nt h1.
      destruct (decide (nt < 0)) as [Hlt|_]; [lia|].
      step_monad. fold nc h2.
      destruct (decide (nc < 0 \/ nc > 8)) as [Hbad|_]; [lia|].
      simpl_world. change (with_log h2 (with_log h1 (with_log h0 w)))
        with (with_log h2 w).
      rewrite Htcu. unfold BUG_ON. rewrite Hr, Hloop. reflexivity.
  - intros n i w1 r w2. split.
    + intros Hr. cbn [init_timers].
      unfold of_property_read_u32_index, BUG_ON. step_monad.
      fold r. cbn [fst snd].
      rewrite bool_decide_eq_true_2 by exact Hr. reflexivity.
    + intros Hr e w3 Hsetup. cbn [init_timers].
      unfold of_property_read_u32_index, BUG_ON. step_monad.
      fold r. cbn [fst snd].
      rewrite bool_decide_eq_false_2 by (intros Hne; apply Hne; exact Hr).
      fold w2. rewrite Hsetup. split.
      * intros He. rewrite bool_decide_eq_true_2 by exact He. reflexivity.
      * intros He.
        rewrite bool_decide_eq_false_2 by (intros Hne; apply Hne; exact He).
        reflexivity.
Qed.

Lemma init_returns_or_stops_witness :
  ingenic_tcu_init (nominal [0] 9) boot
  = Done (- EINVAL)
      (with_log [EvPrInfo banner; EvCountElems "timers" 4 1;
                 EvCountElems "interrupts" 4 9] boot) /\
  0 = 0 /\
  init_timers (nominal [] 2) 1 0 boot
  = Bug (with_log [EvReadU32Index "timers" 0 (- EINVAL)] boot).
Proof.
  split; [|split].
  - apply (init_returns_or_stops (nominal [0] 9) boot).
    + simpl. lia.
    + right. simpl. lia.
  - apply (proj1 (proj2 (proj2 (init_returns_or_stops (nominal [0; 1] 2) boot)))
             ltac:(simpl; lia) ltac:(simpl; lia) 0
             (world_of (ingenic_tcu_init (nominal [0; 1] 2) boot))).
    vm_compute. reflexivity.
  - apply (init_returns_or_stops (nominal [] 2) boot).
    simpl. unfold EINVAL. lia.
Defined.

(** On a kernel that has no clock for channel 0, the setup of the channel
    fails with -ENOENT after rolling its claim back; on a kernel that cannot
    read the first entry of the "timers" property, the read fails with
    -EINVAL. The initializer returns neither error: it stops at the [BUG_ON]
    that follows. *)
Lemma init_stops_on_setup_failure :
  (exists wb,
     ingenic_tcu_init no_clock boot = Bug wb /\
     log wb = bring_up_log 2 2 ++
              [ EvTestAndSetBit 0 false; EvClkGet "timer0" (ErrPtr 2);
                EvClearBit 0 ]) /\
  (forall e w', ingenic_tcu_init no_clock boot <> Done e w') /\
  (exists wb,
     ingenic_tcu_init unreadable_list boot = Bug wb /\
     log wb = [ EvPrInfo banner; EvCountElems "timers" 4 1;
                EvCountElems "interrupts" 4 2; EvKzalloc ObjTcu 0x1000;
                EvKzalloc (ObjChannels 2) 0x2000;
                EvSysconLookup "ter" (Ptr 0x4000); EvOfIomap 0 0xb0002000;
                EvReadU32Index "timers" 0 (- EINVAL) ]) /\
  (forall e w', ingenic_tcu_init unreadable_list boot <> Done e w').
Proof.
  assert (H1 : exists wb, ingenic_tcu_init no_clock boot = Bug wb /\
                log wb = bring_up_log 2 2 ++
                  [ EvTestAndSetBit 0 false; EvClkGet "timer0" (ErrPtr 2);
                    EvClearBit 0 ]).
  { eexists. split; [vm_compute; reflexivity|reflexivity]. }
  assert (H2 : exists wb, ingenic_tcu_init unreadable_list boot = Bug wb /\
                log wb = [ EvPrInfo banner; EvCountElems "timers" 4 1;
                  EvCountElems "interrupts" 4 2; EvKzalloc ObjTcu 0x1000;
                  EvKzalloc (ObjChannels 2) 0x2000;
                  EvSysconLookup "ter" (Ptr 0x4000); EvOfIomap 0 0xb0002000;
                  EvReadU32Index "timers" 0 (- EINVAL) ]).
  { eexists. split; [vm_compute; reflexivity|reflexivity]. }
  split; [exact H1|]. split; [|split; [exact H2|]].
  - destruct H1 as (wb & Hrun & _). intros e w'. rewrite Hrun. discriminate.
  - destruct H2 as (wb & Hrun & _). intros e w'. rewrite Hrun. discriminate.
Qed.

(** ** The unit as [ingenic_tcu_init_tcu] leaves it *)

Lemma number_channels_lookup (n : nat) :
  forall (i : Z) (cs : list ingenic_tcu_channel) (j : nat),
    0 <= i ->
    number_channels n i cs !! j
    = if decide (Z.to_nat i <= j < Z.to_nat i + n)%nat
      then with_idx (Z.of_nat j) <$> cs !! j
      else cs !! j.
Proof.
  induction n as [|n IH]; intros i cs j Hi; cbn [number_channels].
  - case_decide; [lia|reflexivity].
  - rewrite IH by lia.
    replace (Z.to_nat (i + 1)) with (S (Z.to_nat i)) by lia.
    destruct (decide (j = Z.to_nat i)) as [->|Hne].
    + rewrite list_lookup_alter_eq, Z2Nat.id by exact Hi.
      repeat case_decide; try lia. reflexivity.
    + rewrite list_lookup_alter_ne by congruence.
      repeat case_decide; try lia; reflexivity.
Qed.

Lemma init_tcu_created (K : kernel) (n p : Z) (w w1 : world) :
  0 <= n ->
  ingenic_tcu_init_tcu K n w = Done (Ptr p) w1 ->
  requested (tcu w1) = 0 /\
  num_channels (tcu w1) = n /\
  forall c,
    channels (tcu w1) !! c
    = if decide (c < Z.to_nat n)%nat
      then Some {| idx := Z.of_nat c; clk := Ptr 0 |}
      else None.
Proof.
  intros Hn.
  unfold ingenic_tcu_init_tcu, kzalloc, kfree, syscon_regmap_lookup_by_phandle,
    of_iomap, store_tcu.
  step_monad.
  destruct (decide (k_kzalloc K (log w) ObjTcu = 0)); [discriminate|].
  step_monad.
  match goal with
  | |- context [decide (?v = 0)] => destruct (decide (v = 0))
  end; [discriminate|].
  step_monad.
  match goal with
  | |- context [k_syscon_lookup K ?h ?a] => generalize (k_syscon_lookup K h a)
  end.
  intros r. destruct r as [q|e]; cbn [IS_ERR]; [|discriminate].
  step_monad.
  match goal with
  | |- context [decide (?v = 0)] => destruct (decide (v = 0))
  end; [discriminate|].
  intros [= <- <-]. simpl_world.
  split; [reflexivity|]. split; [reflexivity|].
  intros c. rewrite number_channels_lookup by lia.
  change (Z.to_nat 0) with 0%nat.
  destruct (decide (c < Z.to_nat n)%nat) as [Hlt|Hge].
  - rewrite lookup_replicate_2 by exact Hlt.
    case_decide; [reflexivity|lia].
  - rewrite (proj1 (lookup_replicate_None _ _ _)) by lia.
    case_decide; reflexivity.
Qed.

(** * Further properties of the driver *)

(** ** Bits and register addresses *)

Lemma shiftl_1_neg n m : n < 0 -> 0 <= m -> Z.testbit (Z.shiftl 1 n) m = false.
Proof.
  intros Hn Hm. rewrite Z.shiftl_spec by exact Hm.
  change 1 with (Z.ones 1).
  rewrite Z.testbit_ones_nonneg by lia. apply Z.ltb_ge. lia.
Qed.

Lemma setbit_other a n m : n <> m -> Z.testbit (Z.setbit a n) m = Z.testbit a m.
Proof.
  intros Hne. destruct (Z.lt_ge_cases n 0) as [Hn|Hn].
  - destruct (Z.lt_ge_cases m 0) as [Hm|Hm].
    + rewrite !Z.testbit_neg_r by exact Hm. reflexivity.
    + unfold Z.setbit. rewrite Z.lor_spec, shiftl_1_neg by assumption.
      apply orb_false_r.
  - apply Z.setbit_neq; assumption.
Qed.

Lemma clearbit_setbit_free a n :
  Z.testbit a n = false -> Z.clearbit (Z.setbit a n) n = a.
Proof.
  intros H. apply Z.bits_inj'. intros m Hm.
  destruct (Z.eq_dec n m) as [->|Hne].
  - rewrite Z.clearbit_eq. symmetry. exact H.
  - rewrite Z.clearbit_neq by exact Hne. apply setbit_other. exact Hne.
Qed.

Lemma clearbit_clear a n : Z.testbit a n = false -> Z.clearbit a n = a.
Proof.
  intros H. apply Z.bits_inj'. intros m Hm.
  destruct (Z.eq_dec n m) as [->|Hne].
  - rewrite Z.clearbit_eq. symmetry. exact H.
  - apply Z.clearbit_neq. exact Hne.
Qed.

Lemma channel_offset c : 0 <= c < 2 ^ 28 -> u32 (c * CHANNEL_STRIDE) = 16 * c.
Proof.
  intros Hc. unfold CHANNEL_STRIDE. change (2 ^ 28) with 268435456 in Hc.
  rewrite u32_small; change (2 ^ 32) with 4294967296; lia.
Qed.

(** The register blocks of two different channels do not meet: every register
    of channel [i] lies in the 16 bytes from [0x40 + 16 i] (modulo 2^32), and
    these stretches are apart for different channels below 2^28. *)
Lemma register_block c reg :
  0 <= c < 2 ^ 28 -> 0x40 <= reg < 0x50 ->
  u32 (reg + u32 (c * CHANNEL_STRIDE)) / 16 = (4 + c) mod 2 ^ 28.
Proof.
  intros Hc Hreg. rewrite channel_offset by exact Hc.
  unfold u32. change (2 ^ 32) with 4294967296.
  change (2 ^ 28) with 268435456 in *.
  Z.div_mod_to_equations. lia.
Qed.

Lemma register_blocks_apart i j ri rj :
  0 <= i < 2 ^ 28 -> 0 <= j < 2 ^ 28 -> i <> j ->
  0x40 <= ri < 0x50 -> 0x40 <= rj < 0x50 ->
  u32 (ri + u32 (i * CHANNEL_STRIDE)) <> u32 (rj + u32 (j * CHANNEL_STRIDE)).
Proof.
  intros Hi Hj Hne Hri Hrj Heq.
  pose proof (register_block i ri Hi Hri) as Bi.
  pose proof (register_block j rj Hj Hrj) as Bj.
  rewrite Heq, Bj in Bi. change (2 ^ 28) with 268435456 in *.
  Z.div_mod_to_equations. lia.
Qed.

(** ** Disarming, and arming next to other channels *)

(** X1. Shutting a channel down returns 0 and has one effect, the disabling
    of the channel: the enable bit of the channel is clear, the bits of the
    other channels and all registers of the unit are as before; on a channel
    that was not armed the enable register keeps its value, so a second
    shutdown changes nothing more. *)
Theorem shutdown_disarms (jzcevt : ingenic_clock_event_device)
    (ch : ingenic_tcu_channel) (w : world) :
  channels (tcu w) !! channel jzcevt = Some ch ->
  ingenic_tcu_cevt_set_state_shutdown jzcevt w = Done 0 (disarmed ch w) /\
  Z.testbit (ter_reg (disarmed ch w)) (idx ch) = false /\
  (forall j, j <> idx ch ->
     Z.testbit (ter_reg (disarmed ch w)) j = Z.testbit (ter_reg w) j) /\
  mmio (disarmed ch w) = mmio w /\
  tcu (disarmed ch w) = tcu w /\
  (Z.testbit (ter_reg w) (idx ch) = false ->
   ter_reg (disarmed ch w) = ter_reg w) /\
  ter_reg (disarmed ch (disarmed ch w)) = ter_reg (disarmed ch w).
Proof.
  intros Hch.
  split.
  { unfold ingenic_tcu_cevt_set_state_shutdown. step_monad. rewrite Hch.
    reflexivity. }
  unfold disarmed. simpl_world.
  split; [apply Z.clearbit_eq|].
  split; [intros j Hj; apply Z.clearbit_neq; congruence|].
  split; [reflexivity|]. split; [reflexivity|].
  split; [apply clearbit_clear|].
  apply clearbit_clear, Z.clearbit_eq.
Qed.

Lemma shutdown_disarms_witness :
  ingenic_tcu_cevt_set_state_shutdown (device 1 None) two_channels
  = Done 0 (disarmed {| idx := 1; clk := Ptr 0 |} two_channels) /\
  Z.testbit (ter_reg (disarmed {| idx := 1; clk := Ptr 0 |} two_channels)) 1
  = false /\
  (forall j, j <> 1 ->
     Z.testbit (ter_reg (disarmed {| idx := 1; clk := Ptr 0 |} two_channels)) j
     = Z.testbit (ter_reg two_channels) j) /\
  mmio (disarmed {| idx := 1; clk := Ptr 0 |} two_channels) = mmio two_channels /\
  tcu (disarmed {| idx := 1; clk := Ptr 0 |} two_channels) = tcu two_channels /\
  (Z.testbit (ter_reg two_channels) 1 = false ->
   ter_reg (disarmed {| idx := 1; clk := Ptr 0 |} two_channels)
   = ter_reg two_channels) /\
  ter_reg (disarmed {| idx := 1; clk := Ptr 0 |}
             (disarmed {| idx := 1; clk := Ptr 0 |} two_channels))
  = ter_reg (disarmed {| idx := 1; clk := Ptr 0 |} two_channels).
Proof.
  apply (shutdown_disarms (device 1 None) {| idx := 1; clk := Ptr 0 |}
           two_channels).
  reflexivity.
Defined.

(** X2. Arming a channel, whether it succeeds or is refused, leaves every
    other channel alone: the enable bits of the other channels keep their
    value, and so does every register of the unit other than the reload and
    the counter register of the armed channel, in particular the reload and
    counter registers of every other channel below 2^28. *)
Theorem set_next_leaves_others (next : Z) (jzcevt : ingenic_clock_event_device)
    (ch : ingenic_tcu_channel) (w w' : world) (e : Z) :
  channels (tcu w) !! channel jzcevt = Some ch ->
  0 <= idx ch < 2 ^ 28 ->
  ingenic_tcu_cevt_set_next next jzcevt w = Done e w' ->
  (forall j, j <> idx ch ->
     Z.testbit (ter_reg w') j = Z.testbit (ter_reg w) j) /\
  (forall addr,
     addr <> base (tcu w) + REG_TDFRc (idx ch) ->
     addr <> base (tcu w) + REG_TCNTc (idx ch) ->
     readl w' addr = readl w addr) /\
  (forall j, 0 <= j < 2 ^ 28 -> j <> idx ch ->
     readl w' (base (tcu w) + REG_TDFRc j) = readl w (base (tcu w) + REG_TDFRc j) /\
     readl w' (base (tcu w) + REG_TCNTc j) = readl w (base (tcu w) + REG_TCNTc j)).
Proof.
  intros Hch Hidx.
  assert (Hraw : ingenic_tcu_cevt_set_next next jzcevt w = Done e w' ->
    (forall j, j <> idx ch ->
       Z.testbit (ter_reg w') j = Z.testbit (ter_reg w) j) /\
    (forall addr,
       addr <> base (tcu w) + REG_TDFRc (idx ch) ->
       addr <> base (tcu w) + REG_TCNTc (idx ch) ->
       readl w' addr = readl w addr)).
  { unfold ingenic_tcu_cevt_set_next. step_monad. rewrite Hch.
    destruct (decide (next > 65535)) as [Hbig|Hok].
    - intros [= <- <-]. split; intros; reflexivity.
    - step_monad. rewrite Hch. step_monad. intros [= <- <-].
      unfold readl. simpl_world. split.
      + intros j Hj. apply setbit_other. congruence.
      + intros addr H1 H2. rewrite !lookup_insert_ne by congruence.
        reflexivity. }
  intros Hrun. destruct (Hraw Hrun) as [Hbits Hregs].
  split; [exact Hbits|]. split; [exact Hregs|].
  intros j Hj Hne.
  assert (Hreg : forall rj ri, 0x40 <= rj < 0x50 -> 0x40 <= ri < 0x50 ->
            base (tcu w) + u32 (rj + u32 (j * CHANNEL_STRIDE))
            <> base (tcu w) + u32 (ri + u32 (idx ch * CHANNEL_STRIDE))).
  { intros rj ri Hrj Hri Heq.
    apply (register_blocks_apart j (idx ch) rj ri); try assumption. lia. }
  split; apply Hregs; apply Hreg;
    unfold REG_TDFR0, REG_TCNT0; lia.
Qed.

Lemma set_next_leaves_others_witness :
  (forall j, j <> 0 ->
     Z.testbit
       (ter_reg (world_of (ingenic_tcu_cevt_set_next 1000 (device 0 None)
                             two_channels))) j
     = Z.testbit (ter_reg two_channels) j) /\
  (forall addr,
     addr <> 0xb0002000 + REG_TDFRc 0 ->
     addr <> 0xb0002000 + REG_TCNTc 0 ->
     readl (world_of (ingenic_tcu_cevt_set_next 1000 (device 0 None)
                        two_channels)) addr
     = readl two_channels addr) /\
  (forall j, 0 <= j < 2 ^ 28 -> j <> 0 ->
     readl (world_of (ingenic_tcu_cevt_set_next 1000 (device 0 None)
                        two_channels)) (0xb0002000 + REG_TDFRc j)
     = readl two_channels (0xb0002000 + REG_TDFRc j) /\
     readl (world_of (ingenic_tcu_cevt_set_next 1000 (device 0 None)
                        two_channels)) (0xb0002000 + REG_TCNTc j)
     = readl two_channels (0xb0002000 + REG_TCNTc j)).
Proof.
  apply (set_next_leaves_others 1000 (device 0 None)
           {| idx := 0; clk := Ptr 0 |} two_channels
           (world_of (ingenic_tcu_cevt_set_next 1000 (device 0 None)
                        two_channels)) 0).
  - reflexivity.
  - simpl. lia.
  - reflexivity.
Defined.

(** ** Arming and disarming in sequence *)

(** X3. Arming a channel and then shutting it down leaves the channel
    disarmed with its reload and counter registers as the arming set them:
    the shutdown writes no register of the unit. On a channel that was not
    armed before, the enable register is back at its value. *)
Theorem arm_then_shutdown (next : Z) (jzcevt : ingenic_clock_event_device)
    (ch : ingenic_tcu_channel) (w : world) :
  channels (tcu w) !! channel jzcevt = Some ch ->
  0 <= next <= 65535 ->
  exists w1 w2,
    ingenic_tcu_cevt_set_next next jzcevt w = Done 0 w1 /\
    ingenic_tcu_cevt_set_state_shutdown jzcevt w1 = Done 0 w2 /\
    Z.testbit (ter_reg w2) (idx ch) = false /\
    readl w2 (base (tcu w) + REG_TDFRc (idx ch)) = Some next /\
    readl w2 (base (tcu w) + REG_TCNTc (idx ch)) = Some 0 /\
    (Z.testbit (ter_reg w) (idx ch) = false -> ter_reg w2 = ter_reg w).
Proof.
  intros Hch Hnext.
  unfold ingenic_tcu_cevt_set_next, ingenic_tcu_cevt_set_state_shutdown.
  step_monad. rewrite Hch.
  destruct (decide (next > 65535)) as [Hbig|_]; [lia|].
  step_monad. rewrite Hch. step_monad.
  rewrite (u32_small next) by (change (2 ^ 32) with 4294967296; lia).
  eexists. eexists. split; [reflexivity|].
  simpl_world. rewrite Hch. split; [reflexivity|].
  unfold readl. simpl_world.
  split; [apply Z.clearbit_eq|].
  split.
  { rewrite lookup_insert_ne.
    - apply lookup_insert_eq.
    - pose proof (REG_TDFRc_TCNTc_apart (idx ch)). lia. }
  split; [apply lookup_insert_eq|].
  apply clearbit_setbit_free.
Qed.

Lemma arm_then_shutdown_witness :
  exists w1 w2,
    ingenic_tcu_cevt_set_next 1000 (device 0 None) two_channels = Done 0 w1 /\
    ingenic_tcu_cevt_set_state_shutdown (device 0 None) w1 = Done 0 w2 /\
    Z.testbit (ter_reg w2) 0 = false /\
    readl w2 (0xb0002000 + REG_TDFRc 0) = Some 1000 /\
    readl w2 (0xb0002000 + REG_TCNTc 0) = Some 0 /\
    (Z.testbit (ter_reg two_channels) 0 = false ->
     ter_reg w2 = ter_reg two_channels).
Proof.
  apply (arm_then_shutdown 1000 (device 0 None) {| idx := 0; clk := Ptr 0 |}
           two_channels).
  - reflexivity.
  - lia.
Defined.

(** X4. An interrupt whose handler arms the channel again: the interrupt
    handler disarms the channel, the handler programs the reload and counter
    registers and enables the channel, in this order, and the interrupt is
    reported as handled with the channel armed for the new count. *)
Theorem cevt_cb_rearms (next : Z) (jzcevt d : ingenic_clock_event_device)
    (ch : ingenic_tcu_channel) (w : world) :
  channels (tcu w) !! channel jzcevt = Some ch ->
  channel d = channel jzcevt ->
  event_handler (cevt jzcevt)
  = Some (ingenic_tcu_cevt_set_next next d;;; ret tt) ->
  0 <= idx ch ->
  0 <= next <= 65535 ->
  exists w',
    ingenic_tcu_cevt_cb jzcevt w = Done IRQ_HANDLED w' /\
    log w' = log w ++
      [ EvTimerDisable (ter (tcu w)) (idx ch); EvEventHandler;
        EvWritel next (base (tcu w) + REG_TDFRc (idx ch));
        EvWritel 0 (base (tcu w) + REG_TCNTc (idx ch));
        EvTimerEnable (ter (tcu w)) (idx ch) ] /\
    Z.testbit (ter_reg w') (idx ch) = true /\
    readl w' (base (tcu w) + REG_TDFRc (idx ch)) = Some next /\
    readl w' (base (tcu w) + REG_TCNTc (idx ch)) = Some 0.
Proof.
  intros Hch Hd Hh Hidx Hnext.
  unfold ingenic_tcu_cevt_cb. rewrite Hh.
  unfold ingenic_tcu_cevt_set_next. rewrite Hd.
  step_monad. rewrite Hch. step_monad. rewrite Hch.
  destruct (decide (next > 65535)) as [Hbig|_]; [lia|].
  step_monad. rewrite Hch. step_monad.
  rewrite (u32_small next) by (change (2 ^ 32) with 4294967296; lia).
  eexists. split; [reflexivity|].
  unfold readl. simpl_world.
  split; [rewrite <- !app_assoc; reflexivity|].
  split; [apply Z.setbit_eq; exact Hidx|].
  split.
  { rewrite lookup_insert_ne.
    - apply lookup_insert_eq.
    - pose proof (REG_TDFRc_TCNTc_apart (idx ch)). lia. }
  apply lookup_insert_eq.
Qed.

Lemma cevt_cb_rearms_witness :
  exists w',
    ingenic_tcu_cevt_cb (device 0 (Some (rearm 0))) two_channels
    = Done IRQ_HANDLED w' /\
    log w' =
      [ EvTimerDisable (Ptr 0x4000) 0; EvEventHandler;
        EvWritel 500 (0xb0002000 + REG_TDFRc 0);
        EvWritel 0 (0xb0002000 + REG_TCNTc 0);
        EvTimerEnable (Ptr 0x4000) 0 ] /\
    Z.testbit (ter_reg w') 0 = true /\
    readl w' (0xb0002000 + REG_TDFRc 0) = Some 500 /\
    readl w' (0xb0002000 + REG_TCNTc 0) = Some 0.
Proof.
  apply (cevt_cb_rearms 500 (device 0 (Some (rearm 0))) (device 0 None)
           {| idx := 0; clk := Ptr 0 |} two_channels).
  - reflexivity.
  - reflexivity.
  - reflexivity.
  - simpl. lia.
  - lia.
Defined.

(** ** Claiming and releasing a channel *)

(** X5. Claiming a free channel whose clock is found and can be enabled
    returns 0 after exactly three effects, the test of the bit, the clock
    lookup and the enabling of the clock; the bit of the channel is then set,
    the bits of the other channels are as before, and the channel holds the
    clock handle, the other channels being untouched. *)
Theorem req_channel_claims (K : kernel) (c : nat) (ch : ingenic_tcu_channel)
    (w : world) :
  channels (tcu w) !! c = Some ch ->
  0 <= idx ch ->
  Z.testbit (requested (tcu w)) (idx ch) = false ->
  let h1 := log w ++ [EvTestAndSetBit (idx ch) false] in
  let name := "timer" +:+ pretty (idx ch) in
  let r := k_clk_get K h1 name in
  let h2 := h1 ++ [EvClkGet name r] in
  IS_ERR r = false ->
  k_clk_prepare_enable K h2 r = 0 ->
  exists w',
    ingenic_tcu_req_channel K c w = Done 0 w' /\
    log w' = h2 ++ [EvClkPrepareEnable r 0] /\
    Z.testbit (requested (tcu w')) (idx ch) = true /\
    (forall j, j <> idx ch ->
       Z.testbit (requested (tcu w')) j = Z.testbit (requested (tcu w)) j) /\
    channels (tcu w') !! c = Some {| idx := idx ch; clk := r |} /\
    (forall c', c' <> c -> channels (tcu w') !! c' = channels (tcu w) !! c') /\
    mmio w' = mmio w /\ ter_reg w' = ter_reg w.
Proof.
  intros Hch Hidx Hbit h1 name r h2 Hr Hen.
  run_req_channel Hch Hbit. fold h1 name r. rewrite Hr. step_monad.
  fold h2. rewrite Hen.
  destruct (decide (0 <> 0)) as [Hne|_]; [contradiction|].
  eexists. split; [reflexivity|]. simpl_world.
  split; [unfold h2; rewrite <- !app_assoc; reflexivity|].
  split; [apply Z.setbit_eq; exact Hidx|].
  split; [intros j Hj; apply setbit_other; congruence|].
  split; [apply (lookup_store _ _ _ _ Hch)|].
  split; [intros c' Hc'; apply list_lookup_insert_ne; congruence|].
  split; reflexivity.
Qed.

Lemma req_channel_claims_witness :
  exists w',
    ingenic_tcu_req_channel (nominal [0; 1] 2) 1 two_channels = Done 0 w' /\
    log w' = [EvTestAndSetBit 1 false; EvClkGet "timer1" (Ptr 0x5000);
              EvClkPrepareEnable (Ptr 0x5000) 0] /\
    Z.testbit (requested (tcu w')) 1 = true /\
    (forall j, j <> 1 ->
       Z.testbit (requested (tcu w')) j
       = Z.testbit (requested (tcu two_channels)) j) /\
    channels (tcu w') !! 1%nat = Some {| idx := 1; clk := Ptr 0x5000 |} /\
    (forall c', c' <> 1%nat ->
       channels (tcu w') !! c' = channels (tcu two_channels) !! c') /\
    mmio w' = mmio two_channels /\ ter_reg w' = ter_reg two_channels.
Proof.
  apply (req_channel_claims (nominal [0; 1] 2) 1%nat
           {| idx := 1; clk := Ptr 0 |} two_channels).
  - reflexivity.
  - simpl. lia.
  - reflexivity.
  - reflexivity.
  - reflexivity.
Defined.

(** X6. A claim that succeeded, followed by the release of the channel,
    gives the bitmap back as it was before the claim, with the bit of the
    channel clear, so that the channel can be claimed again. The release
    disables the clock that the claim enabled, puts it, and clears the bit,
    in this order, and it leaves the clock handle in the channel. *)
Theorem req_then_free_channel (K : kernel) (c : nat) (ch : ingenic_tcu_channel)
    (w w1 : world) :
  channels (tcu w) !! c = Some ch ->
  Z.testbit (requested (tcu w)) (idx ch) = false ->
  ingenic_tcu_req_channel K c w = Done 0 w1 ->
  exists r w2,
    channels (tcu w1) !! c = Some {| idx := idx ch; clk := r |} /\
    ingenic_tcu_free_channel c w1 = Done tt w2 /\
    log w2 = log w1 ++
      [EvClkDisableUnprepare r; EvClkPut r; EvClearBit (idx ch)] /\
    In (EvClkPrepareEnable r 0) (log w1) /\
    requested (tcu w2) = requested (tcu w) /\
    Z.testbit (requested (tcu w2)) (idx ch) = false /\
    channels (tcu w2) = channels (tcu w1).
Proof.
  intros Hch Hbit. run_req_channel Hch Hbit.
  generalize (k_clk_get K (log w ++ [EvTestAndSetBit (idx ch) false])
                ("timer" +:+ pretty (idx ch))).
  intros r. destruct (IS_ERR r) eqn:Hr.
  { step_monad. intros [= He _]. destruct r; [discriminate Hr|discriminate He]. }
  step_monad.
  match goal with
  | |- context [k_clk_prepare_enable K ?h ?a] =>
      generalize (k_clk_prepare_enable K h a)
  end.
  intros err. destruct (decide (err <> 0)) as [Herr|Herr].
  { step_monad. intros [= He _]. contradiction. }
  intros [= <-]. assert (err = 0) as -> by lia.
  exists r. eexists.
  simpl_world.
  split; [apply (lookup_store _ _ _ _ Hch)|].
  split.
  { apply free_channel_run. simpl_world. apply (lookup_store _ _ _ _ Hch). }
  unfold released. simpl_world. cbn [clk idx with_clk].
  split; [reflexivity|].
  split; [apply in_or_app; right; left; reflexivity|].
  split; [apply clearbit_setbit_free; exact Hbit|].
  split; [apply Z.clearbit_eq|reflexivity].
Qed.

Lemma req_then_free_channel_witness :
  exists r w2,
    channels (tcu (world_of (ingenic_tcu_req_channel (nominal [0; 1] 2) 0
                               two_channels))) !! 0%nat
    = Some {| idx := 0; clk := r |} /\
    ingenic_tcu_free_channel 0
      (world_of (ingenic_tcu_req_channel (nominal [0; 1] 2) 0 two_channels))
    = Done tt w2 /\
    log w2 =
      log (world_of (ingenic_tcu_req_channel (nominal [0; 1] 2) 0 two_channels))
      ++ [EvClkDisableUnprepare r; EvClkPut r; EvClearBit 0] /\
    In (EvClkPrepareEnable r 0)
      (log (world_of (ingenic_tcu_req_channel (nominal [0; 1] 2) 0
                        two_channels))) /\
    requested (tcu w2) = requested (tcu two_channels) /\
    Z.testbit (requested (tcu w2)) 0 = false /\
    channels (tcu w2)
    = channels (tcu (world_of (ingenic_tcu_req_channel (nominal [0; 1] 2) 0
                                 two_channels))).
Proof.
  apply (req_then_free_channel (nominal [0; 1] 2) 0%nat
           {| idx := 0; clk := Ptr 0 |} two_channels
           (world_of (ingenic_tcu_req_channel (nominal [0; 1] 2) 0
                        two_channels))).
  - reflexivity.
  - reflexivity.
  - vm_compute. reflexivity.
Defined.

(** X8. When the creation of the unit succeeds, no channel is claimed, the
    unit has the number of channels it was asked for, and channel [c] of the
    array carries the index [c] and no clock. *)
Theorem init_tcu_numbers_channels (K : kernel) (n p : Z) (w w1 : world) :
  0 <= n ->
  ingenic_tcu_init_tcu K n w = Done (Ptr p) w1 ->
  requested (tcu w1) = 0 /\
  num_channels (tcu w1) = n /\
  forall c,
    channels (tcu w1) !! c
    = if decide (c < Z.to_nat n)%nat
      then Some {| idx := Z.of_nat c; clk := Ptr 0 |}
      else None.
Proof. apply init_tcu_created. Qed.

Lemma init_tcu_numbers_channels_witness :
  requested (tcu (world_of (ingenic_tcu_init_tcu (nominal [0; 1] 2) 2 boot))) = 0 /\
  num_channels (tcu (world_of (ingenic_tcu_init_tcu (nominal [0; 1] 2) 2 boot)))
  = 2 /\
  forall c,
    channels (tcu (world_of (ingenic_tcu_init_tcu (nominal [0; 1] 2) 2 boot)))
      !! c
    = if decide (c < Z.to_nat 2)%nat
      then Some {| idx := Z.of_nat c; clk := Ptr 0 |}
      else None.
Proof.
  apply (init_tcu_numbers_channels (nominal [0; 1] 2) 2 0x1000 boot
           (world_of (ingenic_tcu_init_tcu (nominal [0; 1] 2) 2 boot))).
  - lia.
  - vm_compute. reflexivity.
Defined.

(** ** Creating the unit *)

(** X7. When the creation of the unit fails, everything it allocated has been
    freed, the array of channels first and the unit after it, and the error is
    -ENOMEM for a failed allocation, the error of the lookup of the "ter"
    register map, or -EINVAL when the registers cannot be mapped. *)
Theorem init_tcu_frees_on_failure (K : kernel) (n : Z) (w w1 : world)
    (r : ptr_err) :
  ingenic_tcu_init_tcu K n w = Done r w1 ->
  IS_ERR r = true ->
  (r = ErrPtr 12 /\ log w1 = log w ++ [EvKzalloc ObjTcu 0]) \/
  (exists p, p <> 0 /\
     ((r = ErrPtr 12 /\
       log w1 = log w ++
         [EvKzalloc ObjTcu p; EvKzalloc (ObjChannels n) 0;
          EvKfree 0; EvKfree p]) \/
      (exists cs, cs <> 0 /\
         ((exists e, r = ErrPtr e /\
            log w1 = log w ++
              [EvKzalloc ObjTcu p; EvKzalloc (ObjChannels n) cs;
               EvSysconLookup "ter" (ErrPtr e);
               EvKfree cs; EvKfree p]) \/
          (exists q, r = ErrPtr 22 /\
             log w1 = log w ++
               [EvKzalloc ObjTcu p; EvKzalloc (ObjChannels n) cs;
                EvSysconLookup "ter" (Ptr q); EvOfIomap 0 0;
                EvKfree cs; EvKfree p]))))).
Proof.
  unfold ingenic_tcu_init_tcu, kzalloc, kfree, syscon_regmap_lookup_by_phandle,
    of_iomap, store_tcu.
  step_monad.
  generalize (k_kzalloc K (log w) ObjTcu). intros p.
  destruct (decide (p = 0)) as [->|Hp].
  { intros [= <- <-] _. left. split; reflexivity. }
  step_monad.
  match goal with
  | |- context [k_kzalloc K ?h ?a] => generalize (k_kzalloc K h a)
  end.
  intros cs. destruct (decide (cs = 0)) as [->|Hcs].
  { step_monad. intros [= <- <-] _. right. exists p. split; [exact Hp|].
    left. split; [reflexivity|]. simpl_world. rewrite <- !app_assoc.
    reflexivity. }
  step_monad.
  match goal with
  | |- context [k_syscon_lookup K ?h ?a] => generalize (k_syscon_lookup K h a)
  end.
  intros t. destruct t as [q|e]; cbn [IS_ERR PTR_ERR].
  - step_monad.
    match goal with
    | |- context [k_of_iomap K ?h ?a] => generalize (k_of_iomap K h a)
    end.
    intros b. destruct (decide (b = 0)) as [->|Hb].
    + step_monad. intros [= <- <-] _. right. exists p. split; [exact Hp|].
      right. exists cs. split; [exact Hcs|]. right. exists q.
      split; [reflexivity|]. simpl_world. rewrite <- !app_assoc. reflexivity.
    + intros [= <- <-] Herr. discriminate Herr.
  - step_monad. intros [= <- <-] _. right. exists p. split; [exact Hp|].
    right. exists cs. split; [exact Hcs|]. left. exists e.
    split; [reflexivity|]. simpl_world. rewrite <- !app_assoc. reflexivity.
Qed.

Lemma init_tcu_frees_on_failure_witness :
  (ErrPtr 19 = ErrPtr 12 /\
   log (world_of (ingenic_tcu_init_tcu no_ter 2 boot))
   = log boot ++ [EvKzalloc ObjTcu 0]) \/
  (exists p, p <> 0 /\
     ((ErrPtr 19 = ErrPtr 12 /\
       log (world_of (ingenic_tcu_init_tcu no_ter 2 boot)) = log boot ++
         [EvKzalloc ObjTcu p; EvKzalloc (ObjChannels 2) 0;
          EvKfree 0; EvKfree p]) \/
      (exists cs, cs <> 0 /\
         ((exists e, ErrPtr 19 = ErrPtr e /\
            log (world_of (ingenic_tcu_init_tcu no_ter 2 boot)) = log boot ++
              [EvKzalloc ObjTcu p; EvKzalloc (ObjChannels 2) cs;
               EvSysconLookup "ter" (ErrPtr e);
               EvKfree cs; EvKfree p]) \/
          (exists q, ErrPtr 19 = ErrPtr 22 /\
             log (world_of (ingenic_tcu_init_tcu no_ter 2 boot)) = log boot ++
               [EvKzalloc ObjTcu p; EvKzalloc (ObjChannels 2) cs;
                EvSysconLookup "ter" (Ptr q); EvOfIomap 0 0;
                EvKfree cs; EvKfree p]))))).
Proof.
  apply (init_tcu_frees_on_failure no_ter 2 boot
           (world_of (ingenic_tcu_init_tcu no_ter 2 boot)) (ErrPtr 19)).
  - vm_compute. reflexivity.
  - reflexivity.
Defined.

(** ** What the bring-up never does *)






















(** ** Every run of a channel setup *)

Lemma req_channel_cases (K : kernel) (c : nat) (e : Z) (w w1 : world) :
  ingenic_tcu_req_channel K c w = Done e w1 ->
  exists ch,
    channels (tcu w) !! c = Some ch /\
    ((e = - EBUSY /\ log w1 = log w ++ [EvTestAndSetBit (idx ch) true] /\
      requested (tcu w1) = requested (tcu w)) \/
     (exists e', e = Z.neg e' /\
        log w1 = log w ++
          [ EvTestAndSetBit (idx ch) false;
            EvClkGet (clock_name (idx ch)) (ErrPtr e'); EvClearBit (idx ch) ] /\
        requested (tcu w1) = requested (tcu w)) \/
     (exists p, e <> 0 /\
        log w1 = log w ++
          [ EvTestAndSetBit (idx ch) false;
            EvClkGet (clock_name (idx ch)) (Ptr p);
            EvClkPrepareEnable (Ptr p) e; EvClkPut (Ptr p);
            EvClearBit (idx ch) ] /\
        requested (tcu w1) = requested (tcu w)) \/
     (exists p, e = 0 /\
        Z.testbit (requested (tcu w)) (idx ch) = false /\
        log w1 = log w ++ claim_events (idx ch) (Ptr p) /\
        requested (tcu w1) = Z.setbit (requested (tcu w)) (idx ch) /\
        channels (tcu w1) !! c = Some {| idx := idx ch; clk := Ptr p |})).
Proof.
  unfold ingenic_tcu_req_channel, clk_get, clk_prepare_enable, clk_put.
  step_monad.
  destruct (channels (tcu w) !! c) as [ch|] eqn:Hch; [|discriminate].
  exists ch. split; [reflexivity|]. revert H. step_monad.
  destruct (Z.testbit (requested (tcu w)) (idx ch)) eqn:Hbit.
  { intros [= <- <-]. left. simpl_world.
    split; [reflexivity|]. split; [reflexivity|]. apply setbit_set, Hbit. }
  step_monad. rewrite Hch. step_monad. rewrite (lookup_store _ _ _ _ Hch).
  cbn [clk idx with_clk]. fold (clock_name (idx ch)).
  generalize (k_clk_get K (log w ++ [EvTestAndSetBit (idx ch) false])
                (clock_name (idx ch))).
  intros r. destruct r as [p|e']; cbn [IS_ERR PTR_ERR].
  - step_monad.
    match goal with
    | |- context [k_clk_prepare_enable K ?h ?a] =>
        generalize (k_clk_prepare_enable K h a)
    end.
    intros err. destruct (decide (err <> 0)) as [Herr|Herr].
    + step_monad. intros [= <- <-]. right. right. left. exists p.
      simpl_world. split; [exact Herr|].
      split; [rewrite <- !app_assoc; reflexivity|].
      apply clearbit_setbit_free, Hbit.
    + intros [= <- <-]. right. right. right. exists p.
      assert (err = 0) as -> by lia. simpl_world.
      split; [reflexivity|]. split; [reflexivity|].
      split; [unfold claim_events; rewrite <- !app_assoc; reflexivity|].
      split; [reflexivity|]. apply (lookup_store _ _ _ _ Hch).
  - step_monad. intros [= <- <-]. right. left. exists e'. simpl_world.
    split; [reflexivity|].
    split; [rewrite <- !app_assoc; reflexivity|].
    apply clearbit_setbit_free, Hbit.
Qed.

Lemma reset_channel_cases (K : kernel) (c : nat) (e : Z) (w w1 : world) :
  ingenic_tcu_reset_channel K c w = Done e w1 ->
  exists ch,
    channels (tcu w) !! c = Some ch /\
    tcu w1 = tcu w /\
    ((e = - EINVAL /\
      log w1 = log w ++ [EvOfParsePhandle "tcsr" (idx ch) 0]) \/
     (exists node e', node <> 0 /\ e = Z.neg e' /\
        log w1 = log w ++
          [ EvOfParsePhandle "tcsr" (idx ch) node;
            EvSysconNodeToRegmap node (ErrPtr e') ]) \/
     (exists node t, node <> 0 /\
        log w1 = log w ++
          [ EvOfParsePhandle "tcsr" (idx ch) node;
            EvSysconNodeToRegmap node (Ptr t);
            EvRegmapUpdateBits (Ptr t) 0 0xffc0 0 e ])).
Proof.
  unfold ingenic_tcu_reset_channel, of_parse_phandle, syscon_node_to_regmap,
    regmap_update_bits.
  step_monad.
  destruct (channels (tcu w) !! c) as [ch|] eqn:Hch; [|discriminate].
  intros Hrun. exists ch. split; [reflexivity|]. revert Hrun. step_monad.
  generalize (k_of_parse_phandle K (log w) "tcsr" (idx ch)). intros node.
  destruct (decide (node = 0)) as [->|Hnode].
  { intros [= <- <-]. split; [reflexivity|]. left. split; reflexivity. }
  step_monad.
  match goal with
  | |- context [k_syscon_node_to_regmap K ?h ?a] =>
      generalize (k_syscon_node_to_regmap K h a)
  end.
  intros tcsr. destruct tcsr as [t|e']; cbn [IS_ERR PTR_ERR].
  - step_monad. rewrite tcsr_mask.
    match goal with
    | |- context [k_regmap_update_bits K ?h ?a ?b ?c ?d] =>
        generalize (k_regmap_update_bits K h a b c d)
    end.
    intros err.
    destruct (decide (err = 0)); intros [= <- <-]; simpl_world;
      (split; [reflexivity|]); right; right; exists node, t;
      (split; [exact Hnode|]); rewrite <- !app_assoc; reflexivity.
  - intros [= <- <-]. simpl_world. split; [reflexivity|].
    right. left. exists node, e'. split; [exact Hnode|].
    split; [reflexivity|]. rewrite <- !app_assoc. reflexivity.
Qed.


Lemma setup_cevt_cases (K : kernel) (ix err : Z) (w w' : world) :
  ingenic_tcu_setup_cevt K ix w = Done err w' ->
  exists ch l,
    channels (tcu w) !! Z.to_nat ix = Some ch /\
    log w' = log w ++ l /\
    setup_trace ix (idx ch) err l /\
    (err <> 0 -> requested (tcu w') = requested (tcu w)) /\
    (err = 0 ->
     Z.testbit (requested (tcu w)) (idx ch) = false /\
     requested (tcu w') = Z.setbit (requested (tcu w)) (idx ch)).
Proof.
  intros Hrun. unfold ingenic_tcu_setup_cevt in Hrun.
  apply bind_done in Hrun as (e1 & w1 & Hreq & Hrun).
  apply req_channel_cases in Hreq as (ch & Hch & Hreq).
  exists ch.
  destruct Hreq as [(-> & Hl & Hr)|[(e' & -> & Hl & Hr)|[(p & He & Hl & Hr)|
                    (p & -> & Hbit & Hl & Hr & Hch1)]]].
  - destruct (decide (- EBUSY <> 0)) as [_|Hn]; [|exfalso; apply Hn; discriminate].
    injection Hrun as <- <-. eexists. split; [exact Hch|].
    split; [exact Hl|]. split; [apply setup_busy|].
    split; [intros _; exact Hr|discriminate].
  - destruct (decide (Z.neg e' <> 0)) as [_|Hn]; [|exfalso; apply Hn; discriminate].
    injection Hrun as <- <-. eexists. split; [exact Hch|].
    split; [exact Hl|]. split; [apply setup_no_clock|].
    split; [intros _; exact Hr|discriminate].
  - destruct (decide (e1 <> 0)) as [_|Hn]; [|contradiction].
    injection Hrun as <- <-. eexists. split; [exact Hch|].
    split; [exact Hl|]. split; [apply setup_dead_clock; exact He|].
    split; [intros _; exact Hr|intros Hz; contradiction].
  - destruct (decide (0 <> 0)) as [Hn|_]; [contradiction|].
    apply bind_done in Hrun as (e2 & w2 & Hreset & Hrun).
    apply reset_channel_cases in Hreset as (ch2 & Hch2 & Ht2 & Hreset).
    rewrite Hch1 in Hch2. injection Hch2 as <-.
    rewrite <- Ht2 in Hch1, Hr.
    assert (Hback : Z.clearbit (requested (tcu w2)) (idx ch) = requested (tcu w))
      by (rewrite Hr; apply clearbit_setbit_free, Hbit).
    destruct Hreset as [(-> & Hl2)|[(node & e' & Hnode & -> & Hl2)|
                        (node & t & Hnode & Hl2)]].
    + destruct (decide (- EINVAL <> 0)) as [_|Hn];
        [|exfalso; apply Hn; discriminate].
      unfold bind in Hrun.
      rewrite (free_channel_run _ _ _ Hch1) in Hrun.
      injection Hrun as <- <-. eexists. split; [exact Hch|].
      unfold released. simpl_world. cbn [idx clk].
      split; [rewrite Hl2, Hl, <- !app_assoc; reflexivity|].
      split; [apply setup_no_node|].
      split; [intros _; exact Hback|discriminate].
    + destruct (decide (Z.neg e' <> 0)) as [_|Hn];
        [|exfalso; apply Hn; discriminate].
      unfold bind in Hrun.
      rewrite (free_channel_run _ _ _ Hch1) in Hrun.
      injection Hrun as <- <-. eexists. split; [exact Hch|].
      unfold released. simpl_world. cbn [idx clk].
      split; [rewrite Hl2, Hl, <- !app_assoc; reflexivity|].
      split; [apply setup_no_regmap; exact Hnode|].
      split; [intros _; exact Hback|discriminate].
    + destruct (decide (e2 <> 0)) as [He2|He2].
      { unfold bind in Hrun.
        rewrite (free_channel_run _ _ _ Hch1) in Hrun.
        injection Hrun as <- <-. eexists. split; [exact Hch|].
        unfold released. simpl_world. cbn [idx clk].
        split; [rewrite Hl2, Hl, <- !app_assoc; reflexivity|].
        split; [apply setup_reset_failed; assumption|].
        split; [intros _; exact Hback|intros Hz; contradiction]. }
      assert (e2 = 0) as -> by lia.
      assert (Hlog : log w2 = log w ++ claim_events (idx ch) (Ptr p)
                                ++ reset_events (idx ch) node t)
        by (rewrite Hl2, Hl, <- !app_assoc; reflexivity).
      clear Hl Hl2.
      revert Hrun.
      unfold clk_get_rate, kzalloc, irq_of_parse_and_map, kfree,
        request_irq, irq_dispose_mapping, timer_name, smp_processor_id,
        clockevents_config_and_register.
      step_monad. rewrite Hch1. step_monad. cbn [clk idx].
      generalize (k_clk_get_rate K (log w2) (Ptr p)). intros rate.
      destruct (decide (rate = 0)) as [->|Hrate].
      { step_monad.
        rewrite (free_channel_run _ {| idx := idx ch; clk := Ptr p |})
          by exact Hch1.
        intros [= <- <-].
        eexists. split; [exact Hch|].
        unfold released. simpl_world. cbn [idx clk].
        split; [rewrite Hlog, <- !app_assoc; reflexivity|].
        split; [apply setup_no_rate; exact Hnode|].
        split; [intros _; exact Hback|discriminate]. }
      step_monad.
      match goal with
      | |- context [k_kzalloc K ?h ObjCevt] =>
          generalize (k_kzalloc K h ObjCevt)
      end.
      intros jz. destruct (decide (jz = 0)) as [->|Hjz].
      { step_monad.
        rewrite (free_channel_run _ {| idx := idx ch; clk := Ptr p |})
          by exact Hch1.
        intros [= <- <-].
        eexists. split; [exact Hch|].
        unfold released. simpl_world. cbn [idx clk].
        split; [rewrite Hlog, <- !app_assoc; reflexivity|].
        split; [apply setup_no_memory; assumption|].
        split; [intros _; exact Hback|discriminate]. }
      step_monad.
      match goal with
      | |- context [k_irq_of_parse_and_map K ?h ?a] =>
          generalize (k_irq_of_parse_and_map K h a)
      end.
      intros virq. destruct (decide (virq = 0)) as [->|Hvirq].
      { step_monad.
        rewrite (free_channel_run _ {| idx := idx ch; clk := Ptr p |})
          by exact Hch1.
        intros [= <- <-].
        eexists. split; [exact Hch|].
        unfold released. simpl_world. cbn [idx clk].
        split; [rewrite Hlog, <- !app_assoc; reflexivity|].
        split; [apply setup_no_irq; assumption|].
        split; [intros _; exact Hback|discriminate]. }
      step_monad.
      destruct (ingenic_tcu_timer_names !! Z.to_nat ix) as [devname|] eqn:Hname;
        [|discriminate].
      step_monad.
      match goal with
      | |- context [k_request_irq K ?h ?a ?b] =>
          generalize (k_request_irq K h a b)
      end.
      intros e3. destruct (decide (e3 <> 0)) as [He3|He3].
      { step_monad.
        rewrite (free_channel_run _ {| idx := idx ch; clk := Ptr p |})
          by exact Hch1.
        intros [= <- <-].
        eexists. split; [exact Hch|].
        unfold released. simpl_world. cbn [idx clk].
        split; [rewrite Hlog, <- !app_assoc; reflexivity|].
        split; [apply setup_irq_taken; assumption|].
        split; [intros _; exact Hback|intros Hz; contradiction]. }
      assert (e3 = 0) as -> by lia.
      step_monad. rewrite Hch1. step_monad. cbn [idx].
      fold (device_name (idx ch)).
      match goal with
      | |- context [k_smp_processor_id K ?h] =>
          generalize (k_smp_processor_id K h)
      end.
      intros cpu. intros [= <- <-].
      eexists. split; [exact Hch|]. simpl_world.
      split; [rewrite Hlog, <- !app_assoc; reflexivity|].
      split; [apply setup_registered; assumption|].
      split; [intros Hz; contradiction|].
      intros _. split; [exact Hbit|exact Hr].
Qed.

(** X10. Every completed run of the setup of a channel logs one of eleven
    sequences of effects, fixed by the step that failed: a failed claim ends
    with the rollback of the claim, a failure after the claim ends with the
    release of the channel (clock disabled, clock put, bit cleared), preceded
    by the freeing of the event device when it was allocated and by the
    disposal of the interrupt mapping when it was made; a run that returns 0
    ends with the registration of the event device. *)
Theorem setup_cevt_traces (K : kernel) (ix err : Z) (w w' : world) :
  ingenic_tcu_setup_cevt K ix w = Done err w' ->
  exists ch l,
    channels (tcu w) !! Z.to_nat ix = Some ch /\
    log w' = log w ++ l /\
    setup_trace ix (idx ch) err l.
Proof.
  intros Hrun.
  destruct (setup_cevt_cases K ix err w w' Hrun) as (ch & l & H1 & H2 & H3 & _).
  exists ch, l. split; [exact H1|]. split; [exact H2|exact H3].
Qed.

Lemma setup_cevt_traces_witness :
  exists ch l,
    channels (tcu two_channels) !! Z.to_nat 0 = Some ch /\
    log (world_of (ingenic_tcu_setup_cevt busy_irq 0 two_channels))
    = log two_channels ++ l /\
    setup_trace 0 (idx ch) (-16) l.
Proof.
  apply (setup_cevt_traces busy_irq 0 (-16) two_channels
           (world_of (ingenic_tcu_setup_cevt busy_irq 0 two_channels))).
  vm_compute. reflexivity.
Defined.

(** X11. The setup of a channel is all or nothing for the bitmap: a run that
    returns an error leaves the bitmap exactly as it was, also when the
    channel was already claimed by someone else, and a run returns 0 only
    for a channel that was free, whose bit it leaves set, the other bits
    being as before. *)
Theorem setup_cevt_all_or_nothing (K : kernel) (ix err : Z) (w w' : world) :
  ingenic_tcu_setup_cevt K ix w = Done err w' ->
  exists ch,
    channels (tcu w) !! Z.to_nat ix = Some ch /\
    (err <> 0 -> requested (tcu w') = requested (tcu w)) /\
    (err = 0 ->
     Z.testbit (requested (tcu w)) (idx ch) = false /\
     requested (tcu w') = Z.setbit (requested (tcu w)) (idx ch) /\
     forall j, j <> idx ch ->
       Z.testbit (requested (tcu w')) j = Z.testbit (requested (tcu w)) j).
Proof.
  intros Hrun.
  destruct (setup_cevt_cases K ix err w w' Hrun)
    as (ch & l & H1 & _ & _ & Hfail & Hok).
  exists ch. split; [exact H1|]. split; [exact Hfail|].
  intros Hz. destruct (Hok Hz) as [Hbit Hset].
  split; [exact Hbit|]. split; [exact Hset|].
  intros j Hj. rewrite Hset. apply setbit_other. congruence.
Qed.

Lemma setup_cevt_all_or_nothing_witness :
  requested (tcu (world_of (ingenic_tcu_setup_cevt busy_irq 0 two_channels)))
  = requested (tcu two_channels) /\
  requested (tcu (world_of (ingenic_tcu_setup_cevt (nominal [0; 1] 2) 1
                              two_channels)))
  = Z.setbit (requested (tcu two_channels)) 1.
Proof.
  split.
  - destruct (setup_cevt_all_or_nothing busy_irq 0 (-16) two_channels
                (world_of (ingenic_tcu_setup_cevt busy_irq 0 two_channels)))
      as (ch & _ & Hfail & _).
    + vm_compute. reflexivity.
    + apply Hfail. lia.
  - destruct (setup_cevt_all_or_nothing (nominal [0; 1] 2) 1 0 two_channels
                (world_of (ingenic_tcu_setup_cevt (nominal [0; 1] 2) 1
                             two_channels)))
      as (ch & Hch & _ & Hok).
    + vm_compute. reflexivity.
    + injection Hch as <-. apply Hok. reflexivity.
Defined.

Lemma setup_trace_registrations (ix i err : Z) (l : list event) :
  setup_trace ix i err l ->
  registrations l = if decide (err = 0) then 1%nat else 0%nat.
Proof.
  intros H. destruct H; case_decide; try reflexivity;
    try contradiction; discriminate.
Qed.



(** ** The loop of the initializer *)

Lemma registrations_app (l1 l2 : list event) :
  registrations (l1 ++ l2) = (registrations l1 + registrations l2)%nat.
Proof.
  unfold registrations. rewrite List.filter_app. apply List.length_app.
Qed.

Lemma init_tcu_log (K : kernel) (n : Z) (r : ptr_err) (w w1 : world) :
  ingenic_tcu_init_tcu K n w = Done r w1 ->
  exists l, log w1 = log w ++ l /\ registrations l = 0%nat.
Proof.
  unfold ingenic_tcu_init_tcu, kzalloc, kfree, syscon_regmap_lookup_by_phandle,
    of_iomap, store_tcu.
  step_monad.
  generalize (k_kzalloc K (log w) ObjTcu). intros p.
  destruct (decide (p = 0)).
  { intros [= <- <-]. eexists. split; reflexivity. }
  step_monad.
  match goal with
  | |- context [k_kzalloc K ?h ?a] => generalize (k_kzalloc K h a)
  end.
  intros cs. destruct (decide (cs = 0)).
  { step_monad. intros [= <- <-]. simpl_world. eexists.
    split; [rewrite <- !app_assoc; reflexivity|reflexivity]. }
  step_monad.
  match goal with
  | |- context [k_syscon_lookup K ?h ?a] => generalize (k_syscon_lookup K h a)
  end.
  intros t. destruct (IS_ERR t).
  { step_monad. intros [= <- <-]. simpl_world. eexists.
    split; [rewrite <- !app_assoc; reflexivity|reflexivity]. }
  step_monad.
  match goal with
  | |- context [k_of_iomap K ?h ?a] => generalize (k_of_iomap K h a)
  end.
  intros b. destruct (decide (b = 0)).
  - step_monad. intros [= <- <-]. simpl_world. eexists.
    split; [rewrite <- !app_assoc; reflexivity|reflexivity].
  - intros [= <- <-]. simpl_world. eexists.
    split; [rewrite <- !app_assoc; reflexivity|reflexivity].
Qed.

Lemma init_timers_registers (K : kernel) (n : nat) :
  forall (i : Z) (w w' : world),
    init_timers K n i w = Done tt w' ->
    exists l, log w' = log w ++ l /\ registrations l = n.
Proof.
  induction n as [|n IH]; intros i w w'; cbn [init_timers].
  - intros [= <-]. exists []. split; [symmetry; apply app_nil_r|reflexivity].
  - intros Hrun.
    apply bind_done in Hrun as (r & w1 & Hread & Hrun).
    apply bind_done in Hrun as (u1 & w2 & Hbug1 & Hrun).
    apply bind_done in Hrun as (err & w3 & Hsetup & Hrun).
    apply bind_done in Hrun as (u2 & w4 & Hbug2 & Hrun).
    revert Hread. unfold of_property_read_u32_index. step_monad.
    intros [= <- <-].
    unfold BUG_ON in Hbug1, Hbug2.
    destruct (bool_decide _) in Hbug1; [discriminate|].
    injection Hbug1 as <- <-.
    destruct (bool_decide (err <> 0)) eqn:Herr in Hbug2; [discriminate|].
    injection Hbug2 as <- <-.
    apply bool_decide_eq_false in Herr.
    assert (err = 0) as -> by lia.
    apply setup_cevt_cases in Hsetup as (ch & l1 & _ & Hl1 & Htrace & _).
    apply setup_trace_registrations in Htrace.
    destruct (decide (0 = 0)) as [_|Hne]; [|contradiction].
    apply IH in Hrun as (l2 & Hl2 & Hn2).
    simpl_world_in Hl1.
    eexists. split.
    + rewrite Hl2, Hl1, <- !app_assoc. reflexivity.
    + rewrite !registrations_app, Htrace, Hn2. reflexivity.
Qed.

(** X13. When the initializer returns 0, both property counts were in range
    and it has registered exactly one event device for each entry of the
    "timers" property. *)
Theorem init_registers_every_entry (K : kernel) (w w' : world) :
  ingenic_tcu_init K w = Done 0 w' ->
  let h0 := log w ++ [EvPrInfo banner] in
  let nt := k_count_elems K h0 "timers" 4 in
  let h1 := h0 ++ [EvCountElems "timers" 4 nt] in
  let nc := k_count_elems K h1 "interrupts" 4 in
  0 <= nt /\ 0 <= nc <= 8 /\
  exists l, log w' = log w ++ l /\ registrations l = Z.to_nat nt.
Proof.
  intros Hrun h0 nt h1 nc. revert Hrun. run_init. fold h0 nt h1.
  destruct (decide (nt < 0)) as [Hlt|Hnt]; [discriminate|].
  step_monad. fold nc.
  destruct (decide (nc < 0 \/ nc > 8)) as [Hbad|Hnc]; [discriminate|].
  fold (bind (A:=ptr_err) (B:=Z)).
  intros Hrun.
  apply bind_done in Hrun as (r & w1 & Htcu & Hrun).
  apply bind_done in Hrun as (u1 & w2 & Hbug & Hrun).
  apply bind_done in Hrun as (u2 & w3 & Hloop & Hrun).
  injection Hrun as <-.
  unfold BUG_ON in Hbug. destruct (IS_ERR r); [discriminate|].
  injection Hbug as <- <-.
  apply init_tcu_log in Htcu as (l1 & Hl1 & Hn1).
  destruct u2. apply init_timers_registers in Hloop as (l2 & Hl2 & Hn2).
  simpl_world_in Hl1.
  split; [lia|]. split; [lia|].
  eexists. split.
  - rewrite Hl2, Hl1. unfold h1, h0. rewrite <- !app_assoc. reflexivity.
  - rewrite !registrations_app, Hn1, Hn2. reflexivity.
Qed.

Lemma init_registers_every_entry_witness :
  0 <= 2 /\ 0 <= 2 <= 8 /\
  exists l,
    log (world_of (ingenic_tcu_init (nominal [0; 1] 2) boot)) = log boot ++ l /\
    registrations l = Z.to_nat 2.
Proof.
  apply (init_registers_every_entry (nominal [0; 1] 2) boot
           (world_of (ingenic_tcu_init (nominal [0; 1] 2) boot))).
  vm_compute. reflexivity.
Defined.

(** ** The numbering of the channels *)

Lemma indices_ret {A : Type} (a : A) : keeps_indices (ret a).
Proof. intros w. reflexivity. Qed.

Lemma indices_bind {A B : Type} (m : M A) (k : A -> M B) :
  keeps_indices m -> (forall a, keeps_indices (k a)) ->
  keeps_indices (bind m k).
Proof.
  intros Hm Hk w. unfold bind. pose proof (Hm w) as H1.
  destruct (m w) as [a w1|w1|w1]; cbn [world_of] in *.
  - rewrite (Hk a w1). exact H1.
  - exact H1.
  - exact H1.
Qed.

Lemma indices_emit (e : event) : keeps_indices (emit e).
Proof. intros w. reflexivity. Qed.

Lemma indices_history : keeps_indices history.
Proof. intros w. reflexivity. Qed.

Lemma indices_BUG_ON (b : bool) : keeps_indices (BUG_ON b).
Proof. intros w. unfold BUG_ON. destruct b; reflexivity. Qed.

Lemma indices_channel_at (c : nat) : keeps_indices (channel_at c).
Proof.
  intros w. unfold channel_at. destruct (channels (tcu w) !! c); reflexivity.
Qed.

Lemma indices_store_clk (c : nat) (v : ptr_err) : keeps_indices (store_clk c v).
Proof.
  intros w. unfold store_clk.
  destruct (channels (tcu w) !! c) as [ch|] eqn:Hch; [|reflexivity].
  unfold indices. cbn [world_of]. simpl_world.
  rewrite list_fmap_insert. cbn [idx with_clk].
  apply list_insert_id. rewrite list_lookup_fmap, Hch. reflexivity.
Qed.

Lemma indices_test_and_set_bit (nr : Z) : keeps_indices (test_and_set_bit nr).
Proof. intros w. reflexivity. Qed.

Lemma indices_clear_bit (nr : Z) : keeps_indices (clear_bit nr).
Proof. intros w. reflexivity. Qed.

Lemma indices_timer_name (i : Z) : keeps_indices (timer_name i).
Proof.
  intros w. unfold timer_name.
  destruct (ingenic_tcu_timer_names !! Z.to_nat i); reflexivity.
Qed.

Lemma indices_regmap_update_bits (K : kernel) (map : ptr_err)
    (reg mask val : Z) :
  keeps_indices (regmap_update_bits K map reg mask val).
Proof.
  unfold regmap_update_bits.
  apply indices_bind; [apply indices_history|]. intros h.
  apply indices_bind; [apply indices_emit|]. intros _ w.
  destruct (decide (_ = 0)); reflexivity.
Qed.

Ltac indices :=
  repeat first
    [ apply indices_ret | apply indices_emit | apply indices_history
    | apply indices_BUG_ON | apply indices_channel_at
    | apply indices_store_clk | apply indices_test_and_set_bit
    | apply indices_clear_bit | apply indices_timer_name
    | apply indices_regmap_update_bits
    | assumption
    | apply indices_bind; [|intros ?]
    | match goal with
      | |- keeps_indices (if ?b then _ else _) => destruct b
      | |- keeps_indices (match ?x with _ => _ end) => destruct x
      end ].

Lemma indices_req_channel (K : kernel) (c : nat) :
  keeps_indices (ingenic_tcu_req_channel K c).
Proof.
  unfold ingenic_tcu_req_channel, clk_get, clk_prepare_enable, clk_put.
  indices.
Qed.

Lemma indices_reset_channel (K : kernel) (c : nat) :
  keeps_indices (ingenic_tcu_reset_channel K c).
Proof.
  unfold ingenic_tcu_reset_channel, of_parse_phandle, syscon_node_to_regmap.
  indices.
Qed.

Lemma indices_free_channel (c : nat) :
  keeps_indices (ingenic_tcu_free_channel c).
Proof.
  unfold ingenic_tcu_free_channel, clk_disable_unprepare, clk_put. indices.
Qed.

Lemma indices_setup_cevt (K : kernel) (ix : Z) :
  keeps_indices (ingenic_tcu_setup_cevt K ix).
Proof.
  pose proof (indices_req_channel K) as Hreq.
  pose proof (indices_reset_channel K) as Hreset.
  pose proof indices_free_channel as Hfree.
  unfold ingenic_tcu_setup_cevt, clk_get_rate, kzalloc, kfree,
    irq_of_parse_and_map, request_irq, irq_dispose_mapping, smp_processor_id,
    clockevents_config_and_register.
  repeat first
    [ apply Hreq | apply Hreset | apply Hfree | progress indices ].
Qed.

Lemma indices_init_timers (K : kernel) (n : nat) :
  forall i, keeps_indices (init_timers K n i).
Proof.
  induction n as [|n IH]; intros i; cbn [init_timers].
  - apply indices_ret.
  - pose proof (indices_setup_cevt K) as Hsetup.
    unfold of_property_read_u32_index.
    repeat first [ apply Hsetup | apply IH | progress indices ].
Qed.

Lemma indices_lookup (w : world) (c : nat) (ch : ingenic_tcu_channel) :
  channels (tcu w) !! c = Some ch -> indices w !! c = Some (idx ch).
Proof.
  intros H. unfold indices. rewrite list_lookup_fmap, H. reflexivity.
Qed.

Lemma lookup_indices (w : world) (c : nat) (i : Z) :
  indices w !! c = Some i ->
  exists ch, channels (tcu w) !! c = Some ch /\ idx ch = i.
Proof.
  unfold indices. rewrite list_lookup_fmap.
  destruct (channels (tcu w) !! c) as [ch|]; [|discriminate].
  intros [= <-]. exists ch. split; reflexivity.
Qed.

(** X14. Once the setup of a channel has returned 0, a second setup of the
    same channel, on any kernel, is refused with -EBUSY: it tests the bit,
    finds it set and does nothing else, so that the unit is left as the first
    setup made it. *)
Theorem setup_cevt_twice (K K' : kernel) (ix : Z) (ch : ingenic_tcu_channel)
    (w w1 : world) :
  channels (tcu w) !! Z.to_nat ix = Some ch ->
  0 <= idx ch ->
  ingenic_tcu_setup_cevt K ix w = Done 0 w1 ->
  exists w2,
    ingenic_tcu_setup_cevt K' ix w1 = Done (- EBUSY) w2 /\
    log w2 = log w1 ++ [EvTestAndSetBit (idx ch) true] /\
    tcu w2 = tcu w1 /\
    mmio w2 = mmio w1 /\ ter_reg w2 = ter_reg w1 /\
    regmap_regs w2 = regmap_regs w1.
Proof.
  intros Hch Hidx Hrun.
  destruct (setup_cevt_cases K ix 0 w w1 Hrun)
    as (ch0 & l & Hch0 & _ & _ & _ & Hok).
  rewrite Hch in Hch0. injection Hch0 as <-.
  destruct (Hok eq_refl) as [_ Hset].
  pose proof (indices_setup_cevt K ix w) as Hix. rewrite Hrun in Hix.
  cbn [world_of] in Hix.
  pose proof (indices_lookup w _ _ Hch) as Hi. rewrite <- Hix in Hi.
  apply lookup_indices in Hi as (ch1 & Hch1 & Hidx1).
  assert (Hbit : Z.testbit (requested (tcu w1)) (idx ch1) = true)
    by (rewrite Hidx1, Hset; apply Z.setbit_eq; exact Hidx).
  unfold ingenic_tcu_setup_cevt, ingenic_tcu_req_channel. step_monad.
  rewrite Hch1. step_monad. rewrite Hbit.
  destruct (decide (- EBUSY <> 0)) as [_|Hn]; [|exfalso; apply Hn; discriminate].
  eexists. split; [reflexivity|]. simpl_world.
  rewrite (setbit_set _ _ Hbit), Hidx1.
  split; [reflexivity|].
  split; [destruct w1 as [t ? ? ? ?]; destruct t; reflexivity|].
  repeat split; reflexivity.
Qed.

Lemma setup_cevt_twice_witness :
  exists w2,
    ingenic_tcu_setup_cevt busy_irq 0
      (world_of (ingenic_tcu_setup_cevt (nominal [0; 1] 2) 0 two_channels))
    = Done (- EBUSY) w2 /\
    log w2
    = log (world_of (ingenic_tcu_setup_cevt (nominal [0; 1] 2) 0 two_channels))
      ++ [EvTestAndSetBit 0 true] /\
    tcu w2
    = tcu (world_of (ingenic_tcu_setup_cevt (nominal [0; 1] 2) 0 two_channels)) /\
    mmio w2
    = mmio (world_of (ingenic_tcu_setup_cevt (nominal [0; 1] 2) 0 two_channels)) /\
    ter_reg w2
    = ter_reg (world_of (ingenic_tcu_setup_cevt (nominal [0; 1] 2) 0
                           two_channels)) /\
    regmap_regs w2
    = regmap_regs (world_of (ingenic_tcu_setup_cevt (nominal [0; 1] 2) 0
                               two_channels)).
Proof.
  apply (setup_cevt_twice (nominal [0; 1] 2) busy_irq 0
           {| idx := 0; clk := Ptr 0 |} two_channels
           (world_of (ingenic_tcu_setup_cevt (nominal [0; 1] 2) 0
                        two_channels))).
  - reflexivity.
  - simpl. lia.
  - vm_compute. reflexivity.
Defined.

(** X15. When the initializer returns 0, the unit has as many channels as
    the "interrupts" property has entries, at most 8, and every channel of
    the array carries its position as its index, whatever was claimed on the
    way. *)
Theorem init_numbers_channels (K : kernel) (w w' : world) :
  ingenic_tcu_init K w = Done 0 w' ->
  let h0 := log w ++ [EvPrInfo banner] in
  let nt := k_count_elems K h0 "timers" 4 in
  let h1 := h0 ++ [EvCountElems "timers" 4 nt] in
  let nc := k_count_elems K h1 "interrupts" 4 in
  length (channels (tcu w')) = Z.to_nat nc /\
  forall c ch,
    channels (tcu w') !! c = Some ch ->
    idx ch = Z.of_nat c /\ 0 <= idx ch < 8.
Proof.
  intros Hrun h0 nt h1 nc. revert Hrun. run_init. fold h0 nt h1.
  destruct (decide (nt < 0)) as [Hlt|Hnt]; [discriminate|].
  step_monad. fold nc.
  destruct (decide (nc < 0 \/ nc > 8)) as [Hbad|Hnc]; [discriminate|].
  fold (bind (A:=ptr_err) (B:=Z)).
  intros Hrun.
  apply bind_done in Hrun as (r & w1 & Htcu & Hrun).
  apply bind_done in Hrun as (u1 & w2 & Hbug & Hrun).
  apply bind_done in Hrun as (u2 & w3 & Hloop & Hrun).
  injection Hrun as <-.
  unfold BUG_ON in Hbug. destruct r as [p|e]; cbn [IS_ERR] in Hbug;
    [|discriminate].
  injection Hbug as <- <-.
  apply init_tcu_created in Htcu as (_ & _ & Hcs); [|lia].
  pose proof (indices_init_timers K (Z.to_nat nt) 0 w1) as Hix.
  rewrite Hloop in Hix. cbn [world_of] in Hix.
  assert (Hi : forall c,
            indices w3 !! c
            = if decide (c < Z.to_nat nc)%nat then Some (Z.of_nat c) else None).
  { intros c. rewrite Hix. unfold indices. rewrite list_lookup_fmap, Hcs.
    case_decide; reflexivity. }
  split.
  - assert (Hlen : length (indices w3) = Z.to_nat nc).
    { destruct (Nat.lt_trichotomy (length (indices w3)) (Z.to_nat nc))
        as [Hlt|[Heq|Hgt]]; [|exact Heq|].
      - pose proof (Hi (length (indices w3))) as H.
        rewrite lookup_ge_None_2 in H by lia.
        case_decide; [discriminate|lia].
      - pose proof (Hi (Z.to_nat nc)) as H.
        destruct (lookup_lt_is_Some_2 (indices w3) (Z.to_nat nc) Hgt)
          as [x Hx].
        rewrite Hx in H. case_decide; [lia|discriminate]. }
    unfold indices in Hlen. rewrite length_fmap in Hlen. exact Hlen.
  - intros c ch Hch. apply indices_lookup in Hch. rewrite Hi in Hch.
    case_decide; [|discriminate]. injection Hch as Hch. lia.
Qed.

Lemma init_numbers_channels_witness :
  length (channels (tcu (world_of (ingenic_tcu_init (nominal [0; 1] 2) boot))))
  = Z.to_nat 2 /\
  forall c ch,
    channels (tcu (world_of (ingenic_tcu_init (nominal [0; 1] 2) boot))) !! c
    = Some ch ->
    idx ch = Z.of_nat c /\ 0 <= idx ch < 8.
Proof.
  apply (init_numbers_channels (nominal [0; 1] 2) boot
           (world_of (ingenic_tcu_init (nominal [0; 1] 2) boot))).
  vm_compute. reflexivity.
Defined.

(** ** The layout of the registers *)

(** X16. For a channel below 2^28 - 4 the four registers of the channel lie
    at 0x40, 0x44, 0x48 and 0x4c plus 16 times the channel; for a channel
    below 2^28 no register of the channel coincides with a register of
    another such channel; and the offsets wrap: channel [c + 2^28] has the
    registers of channel [c]. *)
Theorem channel_registers_layout (c : Z) :
  0 <= c < 2 ^ 28 ->
  (c < 2 ^ 28 - 4 ->
   REG_TDFRc c = 0x40 + 16 * c /\ REG_TDHRc c = 0x44 + 16 * c /\
   REG_TCNTc c = 0x48 + 16 * c /\ REG_TCSRc c = 0x4c + 16 * c) /\
  (forall j, 0 <= j < 2 ^ 28 -> j <> c ->
     forall r, r = REG_TDFRc j \/ r = REG_TDHRc j \/ r = REG_TCNTc j
               \/ r = REG_TCSRc j ->
     r <> REG_TDFRc c /\ r <> REG_TDHRc c /\ r <> REG_TCNTc c
     /\ r <> REG_TCSRc c) /\
  (REG_TDFRc (c + 2 ^ 28) = REG_TDFRc c /\
   REG_TCNTc (c + 2 ^ 28) = REG_TCNTc c).
Proof.
  intros Hc. split; [|split].
  - intros Hc4.
    unfold REG_TDFRc, REG_TDHRc, REG_TCNTc, REG_TCSRc, REG_TDFR0, REG_TDHR0,
      REG_TCNT0, REG_TCSR0.
    rewrite channel_offset by exact Hc.
    change (2 ^ 28) with 268435456 in Hc, Hc4.
    repeat split; apply u32_small; change (2 ^ 32) with 4294967296; lia.
  - intros j Hj Hne r Hr.
    assert (Hreg : forall rj ri, 0x40 <= rj < 0x50 -> 0x40 <= ri < 0x50 ->
              u32 (rj + u32 (j * CHANNEL_STRIDE))
              <> u32 (ri + u32 (c * CHANNEL_STRIDE)))
      by (intros rj ri Hrj Hri; apply register_blocks_apart; assumption).
    unfold REG_TDFRc, REG_TDHRc, REG_TCNTc, REG_TCSRc, REG_TDFR0, REG_TDHR0,
      REG_TCNT0, REG_TCSR0 in *.
    destruct Hr as [-> | [-> | [-> | ->]]]; repeat split; apply Hreg; lia.
  - assert (Hwrap : u32 ((c + 2 ^ 28) * CHANNEL_STRIDE) = u32 (c * CHANNEL_STRIDE)).
    { unfold u32, CHANNEL_STRIDE.
      replace ((c + 2 ^ 28) * 16) with (c * 16 + 1 * 2 ^ 32)
        by (change (2 ^ 28) with 268435456;
            change (2 ^ 32) with 4294967296; lia).
      apply Z.mod_add. discriminate. }
    unfold REG_TDFRc, REG_TCNTc. rewrite Hwrap. split; reflexivity.
Qed.

Lemma channel_registers_layout_witness :
  (REG_TDFRc 7 = 0x40 + 16 * 7 /\ REG_TDHRc 7 = 0x44 + 16 * 7 /\
   REG_TCNTc 7 = 0x48 + 16 * 7 /\ REG_TCSRc 7 = 0x4c + 16 * 7) /\
  (forall j, 0 <= j < 2 ^ 28 -> j <> 7 ->
     forall r, r = REG_TDFRc j \/ r = REG_TDHRc j \/ r = REG_TCNTc j
               \/ r = REG_TCSRc j ->
     r <> REG_TDFRc 7 /\ r <> REG_TDHRc 7 /\ r <> REG_TCNTc 7
     /\ r <> REG_TCSRc 7) /\
  (REG_TDFRc (7 + 2 ^ 28) = REG_TDFRc 7 /\
   REG_TCNTc (7 + 2 ^ 28) = REG_TCNTc 7).
Proof.
  destruct (channel_registers_layout 7) as (H1 & H2 & H3).
  - lia.
  - split; [apply H1; lia|]. split; [exact H2|exact H3].
Defined.
